(** * Response interpretation of [services/geminiService.ts]

    A shallow embedding of the two response-handling paths of the service
    layer: [handleApiResponse] (shared by edit, filter, adjustment,
    composition and upscale) and the part of [detectObjects] that runs once
    the model call has resolved.  Strings are [string]s whose characters stand
    for code units below 256; exceptions are values of a completion type.
    The [console] calls are diagnostics and are left out.

    Around them: [fileToPart], the six operations of the service with the
    model call as a parameter, and the state and handlers of the background
    panel and the object panel. *)

From Stdlib Require Import String Ascii List Bool Arith.
From Stdlib Require Import NArith DecimalString.
Import ListNotations.

Open Scope list_scope.
Open Scope string_scope.

(** ** JavaScript runtime primitives used by the service *)

Module JS.

(** The double-quote character, which one template puts around the text. *)
Definition dquote : string := String "034"%char EmptyString.

(** [ToBoolean] on a string: only the empty string is falsy. *)
Definition truthy_string (s : string) : bool :=
  match s with
  | EmptyString => false
  | String _ _ => true
  end.

(** [ToBoolean] on [string | undefined]. *)
Definition truthy (v : option string) : bool :=
  match v with
  | Some s => truthy_string s
  | None => false
  end.

(** [ToBoolean] on [object | undefined]: every object is truthy. *)
Definition truthy_object {A : Type} (v : option A) : bool :=
  match v with
  | Some _ => true
  | None => false
  end.

(** [v || ''] for [v : string | undefined]. *)
Definition or_empty (v : option string) : string :=
  if truthy v then match v with Some s => s | None => "" end else "".

(** [`${v}`] for [v : string | undefined]. *)
Definition interpolate (v : option string) : string :=
  match v with
  | Some s => s
  | None => "undefined"
  end.

(** [a !== b] on [string | undefined] against a string constant. *)
Definition strict_neq (v : option string) (k : string) : bool :=
  match v with
  | Some s => negb (String.eqb s k)
  | None => true
  end.

(** Optional chaining [o?.f]. *)
Definition chain {A B : Type} (o : option A) (f : A -> option B) : option B :=
  match o with
  | Some a => f a
  | None => None
  end.

(** [o?.[i]] on an optional array. *)
Definition chain_index {A : Type} (o : option (list A)) (i : nat) : option A :=
  chain o (fun l => nth_error l i).

(** [o?.find(p)] on an optional array. *)
Definition chain_find {A : Type} (o : option (list A)) (p : A -> bool) : option A :=
  chain o (fun l => List.find p l).

(** White space and line terminators removed by [String.prototype.trim],
    restricted to the code units a [string] character can hold:
    TAB, LF, VT, FF, CR, SP and NBSP. *)
Definition is_whitespace (c : ascii) : bool :=
  match nat_of_ascii c with
  | 9 | 10 | 11 | 12 | 13 | 32 | 160 => true
  | _ => false
  end.

Fixpoint trimStart (s : string) : string :=
  match s with
  | EmptyString => EmptyString
  | String c s' => if is_whitespace c then trimStart s' else s
  end.

Fixpoint trimEnd (s : string) : string :=
  match s with
  | EmptyString => EmptyString
  | String c s' =>
      match trimEnd s' with
      | EmptyString => if is_whitespace c then EmptyString else String c EmptyString
      | t => String c t
      end
  end.

(** [s.trim()]. *)
Definition trim (s : string) : string := trimEnd (trimStart s).

(** [s.startsWith(p)]. *)
Fixpoint startsWith (s p : string) {struct p} : bool :=
  match p, s with
  | EmptyString, _ => true
  | String a p', String b s' => Ascii.eqb a b && startsWith s' p'
  | String _ _, EmptyString => false
  end.

(** [s.includes(sub)]. *)
Fixpoint includes (s sub : string) : bool :=
  startsWith s sub ||
  match s with
  | EmptyString => false
  | String _ s' => includes s' sub
  end.

End JS.

Notation "o ?. f" := (JS.chain o f) (at level 40, left associativity).
#[warning="-postfix-notation-not-level-1"] Notation "o ?[ i ]" := (JS.chain_index o i) (at level 40, left associativity).

(** [sub] occurs in [s] as a contiguous run of characters. *)
Definition Contains (sub s : string) : Prop :=
  exists pre post : string, s = pre ++ sub ++ post.

(** ** Completions: a returned value or a thrown exception *)

(** The names the specification gives to the four [throw new Error(...)]
    statements that leave the service functions. [Error] objects carry a
    message only; the kind records which statement threw. *)
Inductive FailureKind : Type :=
| RequestBlocked
| AbnormalFinish
| NoImageReturned
| MalformedDetectionPayload.

Inductive exn : Type :=
| Failure (kind : FailureKind) (message : string)
    (* an [Error] thrown to the caller *)
| InnerError (message : string)
    (* an [Error] thrown inside a [try] block *)
| TypeError
    (* reading a property of [undefined] *)
| SyntaxError.
    (* [JSON.parse] on ill-formed text *)

Inductive Completion (A : Type) : Type :=
| Return (a : A)
| Throw (e : exn).

Arguments Return {A} a.
Arguments Throw {A} e.

Definition bind {A B : Type} (c : Completion A) (k : A -> Completion B) : Completion B :=
  match c with
  | Return a => k a
  | Throw e => Throw e
  end.

Definition try_catch {A : Type} (c : Completion A) (handler : exn -> Completion A) : Completion A :=
  match c with
  | Return a => Return a
  | Throw e => handler e
  end.

Notation "x <- c ;; k" := (bind c (fun x => k))
  (at level 61, c at next level, right associativity).
Notation "c ;;; k" := (bind c (fun _ => k))
  (at level 61, right associativity).

(** ** The response shape *)

(** Modelled from the spec: the declaration of the response type belongs to
    the client library and is not part of the repository; the records follow
    section 3 of the specification, with every field optional that the code
    reads through [?.] or tests for truthiness. *)
Record Blob : Type := mkBlob {
  mimeType : string;
  data : string
}.

Record Part : Type := mkPart {
  inlineData : option Blob;
  part_text : option string
}.

Record Content : Type := mkContent {
  parts : option (list Part)
}.

Record Candidate : Type := mkCandidate {
  content : option Content;
  finishReason : option string
}.

Record PromptFeedback : Type := mkPromptFeedback {
  blockReason : option string;
  blockReasonMessage : option string
}.

Record GenerateContentResponse : Type := mkResponse {
  promptFeedback : option PromptFeedback;
  candidates : option (list Candidate);
  text : option string
}.

(** ** Interpretation of an image response *)

(** Lines 44-49 and 288-293: the prompt-blocking check, written twice in the
    source with the same text. *)
Definition check_blocked (response : GenerateContentResponse) : Completion unit :=
  if JS.truthy (promptFeedback response ?. blockReason) then
    let errorMessage :=
      "Request was blocked. Reason: "
      ++ JS.interpolate (promptFeedback response ?. blockReason) ++ ". "
      ++ JS.or_empty (promptFeedback response ?. blockReasonMessage) in
    Throw (Failure RequestBlocked errorMessage)
  else Return tt.

Definition handleApiResponse
    (response : GenerateContentResponse) (context : string) : Completion string :=
  (* 1. Check for prompt blocking first *)
  check_blocked response ;;;
  (* 2. Try to find the image part *)
  let imagePartFromResponse :=
    JS.chain_find (candidates response ?[0] ?. content ?. parts)
                  (fun part => JS.truthy_object (inlineData part)) in
  match imagePartFromResponse ?. inlineData with
  | Some (mkBlob mimeType data) =>
      Return ("data:" ++ mimeType ++ ";base64," ++ data)
  | None =>
      (* 3. If no image, check for other reasons *)
      let finishReason := candidates response ?[0] ?. finishReason in
      if JS.truthy finishReason && JS.strict_neq finishReason "STOP" then
        let errorMessage :=
          "Image generation for " ++ context
          ++ " stopped unexpectedly. Reason: " ++ JS.interpolate finishReason
          ++ ". This often relates to safety settings." in
        Throw (Failure AbnormalFinish errorMessage)
      else
        let textFeedback := option_map JS.trim (text response) in
        let errorMessage :=
          "The AI model did not return an image for the " ++ context ++ ". "
          ++ (if JS.truthy textFeedback
              then "The model responded with text: " ++ JS.dquote
                   ++ JS.interpolate textFeedback ++ JS.dquote
              else "This can happen due to safety filters or if the request is too complex. Please try rephrasing your prompt to be more direct.") in
        Throw (Failure NoImageReturned errorMessage)
  end.

(** ** Object detection *)

(** Values produced by [JSON.parse].  A number keeps its numeral as written
    (its rounding to a double is not modelled); an object keeps its members
    in the order of the text. *)
#[warning="-register-all"] Inductive JSValue : Type :=
| JNull
| JBool (b : bool)
| JNumber (numeral : string)
| JString (s : string)
| JArray (elements : list JSValue)
| JObject (members : list (string * JSValue)).

(** [Array.isArray(v)]. *)
Definition isArray (v : JSValue) : bool :=
  match v with
  | JArray _ => true
  | _ => false
  end.

Section Detection.

(** [JSON.parse] belongs to the runtime: [None] stands for a thrown
    [SyntaxError]. *)
Variable JSON_parse : string -> option JSValue.

(** Lines 288-310 of [detectObjects]: what happens to the response once
    the model call has resolved. *)
Definition detectObjects (response : GenerateContentResponse)
  : Completion (list JSValue) :=
  check_blocked response ;;;
  try_catch
    (jsonText <- match text response with
                 | Some t => Return (JS.trim t)
                 | None => Throw TypeError
                 end ;;
     if negb (JS.truthy_string jsonText) then
       Return []
     else
       detectedObjects <- match JSON_parse jsonText with
                          | Some v => Return v
                          | None => Throw SyntaxError
                          end ;;
       (* Validate the structure *)
       match detectedObjects with
       | JArray elements => Return elements
       | _ => Throw (InnerError "Parsed JSON is not an array.")
       end)
    (fun e =>
       Throw (Failure MalformedDetectionPayload
                "The AI model returned an invalid format for object detection. Please try again.")).

End Detection.

(** ** A reference [JSON.parse]

    A recursive-descent reader of the JSON grammar (ECMA-404), used to run
    [detectObjects] on concrete texts.  Escapes [\uXXXX] are read when the
    code unit is below 256; other texts are outside the string model. *)
Module JSON.

Definition is_ws (c : ascii) : bool :=
  match nat_of_ascii c with
  | 9 | 10 | 13 | 32 => true
  | _ => false
  end.

Fixpoint skip_ws (s : string) : string :=
  match s with
  | String c s' => if is_ws c then skip_ws s' else s
  | EmptyString => EmptyString
  end.

Definition is_digit (c : ascii) : bool :=
  (48 <=? nat_of_ascii c)%nat && (nat_of_ascii c <=? 57)%nat.

(** The longest run of digits at the head of [s], and what follows. *)
Fixpoint digits (s : string) : string * string :=
  match s with
  | String c s' =>
      if is_digit c then let (d, r) := digits s' in (String c d, r)
      else (EmptyString, s)
  | EmptyString => (EmptyString, EmptyString)
  end.

(** [digits] that must not be empty. *)
Definition digits1 (s : string) : option (string * string) :=
  match digits s with
  | (EmptyString, _) => None
  | (d, r) => Some (d, r)
  end.

(** int: [0] or a digit run without a leading zero. *)
Definition int_part (s : string) : option (string * string) :=
  match s with
  | String "0" r => Some ("0", r)
  | _ => digits1 s
  end.

Definition frac_part (s : string) : option (string * string) :=
  match s with
  | String "." r =>
      match digits1 r with
      | Some (d, r') => Some ("." ++ d, r')
      | None => None
      end
  | _ => Some (EmptyString, s)
  end.

Definition exp_part (s : string) : option (string * string) :=
  match s with
  | String c r =>
      if Ascii.eqb c "e" || Ascii.eqb c "E" then
        let (sign, r1) :=
          match r with
          | String "+" r' => ("+", r')
          | String "-" r' => ("-", r')
          | _ => (EmptyString, r)
          end in
        match digits1 r1 with
        | Some (d, r2) => Some (String c (sign ++ d), r2)
        | None => None
        end
      else Some (EmptyString, s)
  | EmptyString => Some (EmptyString, s)
  end.

Definition number (s : string) : option (string * string) :=
  let (sign, s0) :=
    match s with
    | String "-" r => ("-", r)
    | _ => (EmptyString, s)
    end in
  match int_part s0 with
  | Some (i, s1) =>
      match frac_part s1 with
      | Some (f, s2) =>
          match exp_part s2 with
          | Some (e, s3) => Some (sign ++ i ++ f ++ e, s3)
          | None => None
          end
      | None => None
      end
  | None => None
  end.

Definition hex_digit (c : ascii) : option nat :=
  let n := nat_of_ascii c in
  if ((48 <=? n) && (n <=? 57))%nat then Some (n - 48)
  else if ((65 <=? n) && (n <=? 70))%nat then Some (n - 55)
  else if ((97 <=? n) && (n <=? 102))%nat then Some (n - 87)
  else None.

(** The character a two-character escape stands for. *)
Definition simple_escape (c : ascii) : option ascii :=
  match c with
  | "034"%char => Some "034"%char
  | "\"%char => Some "\"%char
  | "/"%char => Some "/"%char
  | "b"%char => Some "008"%char
  | "f"%char => Some "012"%char
  | "n"%char => Some "010"%char
  | "r"%char => Some "013"%char
  | "t"%char => Some "009"%char
  | _ => None
  end.

(** The characters of a string literal after its opening quote, up to and
    including the closing quote. *)
Fixpoint chars (s : string) : option (string * string) :=
  match s with
  | EmptyString => None
  | String "034" r => Some (EmptyString, r)
  | String "\" (String "u" (String h1 (String h2 (String h3 (String h4 r))))) =>
      match hex_digit h1, hex_digit h2, hex_digit h3, hex_digit h4 with
      | Some 0, Some 0, Some a, Some b =>
          match chars r with
          | Some (str, r') => Some (String (ascii_of_nat (16 * a + b)) str, r')
          | None => None
          end
      | _, _, _, _ => None
      end
  | String "\" (String e r) =>
      match simple_escape e with
      | Some c =>
          match chars r with
          | Some (str, r') => Some (String c str, r')
          | None => None
          end
      | None => None
      end
  | String "\" EmptyString => None
  | String c r =>
      if (nat_of_ascii c <? 32)%nat then None
      else
        match chars r with
        | Some (str, r') => Some (String c str, r')
        | None => None
        end
  end.

(** [keyword k v s]: [s] starts with [k], giving the value [v]. *)
Definition keyword (k : string) (v : JSValue) (s : string)
  : option (JSValue * string) :=
  if JS.startsWith s k
  then Some (v, substring (String.length k) (String.length s - String.length k) s)
  else None.

Fixpoint value (fuel : nat) (s : string) {struct fuel}
  : option (JSValue * string) :=
  match fuel with
  | 0 => None
  | S fuel' =>
      match skip_ws s with
      | EmptyString => None
      | String "n" _ as s0 => keyword "null" JNull s0
      | String "t" _ as s0 => keyword "true" (JBool true) s0
      | String "f" _ as s0 => keyword "false" (JBool false) s0
      | String "034" r =>
          match chars r with
          | Some (str, r') => Some (JString str, r')
          | None => None
          end
      | String "[" r =>
          match skip_ws r with
          | String "]" r' => Some (JArray [], r')
          | _ =>
              match elements fuel' r with
              | Some (vs, r') => Some (JArray vs, r')
              | None => None
              end
          end
      | String "{" r =>
          match skip_ws r with
          | String "}" r' => Some (JObject [], r')
          | _ =>
              match members fuel' r with
              | Some (ms, r') => Some (JObject ms, r')
              | None => None
              end
          end
      | s0 =>
          match number s0 with
          | Some (n, r) => Some (JNumber n, r)
          | None => None
          end
      end
  end

with elements (fuel : nat) (s : string) {struct fuel}
  : option (list JSValue * string) :=
  match fuel with
  | 0 => None
  | S fuel' =>
      match value fuel' s with
      | Some (v, r) =>
          match skip_ws r with
          | String "," r' =>
              match elements fuel' r' with
              | Some (vs, r'') => Some (v :: vs, r'')
              | None => None
              end
          | String "]" r' => Some ([v], r')
          | _ => None
          end
      | None => None
      end
  end

with members (fuel : nat) (s : string) {struct fuel}
  : option (list (string * JSValue) * string) :=
  match fuel with
  | 0 => None
  | S fuel' =>
      match skip_ws s with
      | String "034" r =>
          match chars r with
          | Some (key, r1) =>
              match skip_ws r1 with
              | String ":" r2 =>
                  match value fuel' r2 with
                  | Some (v, r3) =>
                      match skip_ws r3 with
                      | String "," r4 =>
                          match members fuel' r4 with
                          | Some (ms, r5) => Some ((key, v) :: ms, r5)
                          | None => None
                          end
                      | String "}" r4 => Some ([(key, v)], r4)
                      | _ => None
                      end
                  | None => None
                  end
              | _ => None
              end
          | None => None
          end
      | _ => None
      end
  end.

(** [JSON.parse(s)]: one value, surrounded by white space only. *)
Definition parse (s : string) : option JSValue :=
  match value (3 * String.length s + 3) s with
  | Some (v, r) =>
      match skip_ws r with
      | EmptyString => Some v
      | _ => None
      end
  | None => None
  end.

End JSON.

(** ** Vocabulary of the properties *)

(** [promptFeedback.blockReason], absent when either level is. *)
Definition blockReason_of (r : GenerateContentResponse) : option string :=
  match promptFeedback r with
  | Some pf => blockReason pf
  | None => None
  end.

Definition blockReasonMessage_of (r : GenerateContentResponse) : option string :=
  match promptFeedback r with
  | Some pf => blockReasonMessage pf
  | None => None
  end.

Definition first_candidate (r : GenerateContentResponse) : option Candidate :=
  match candidates r with
  | Some (c :: _) => Some c
  | _ => None
  end.

(** The parts of the first candidate, when the candidate, its content and
    the content's parts are all there. *)
Definition first_parts (r : GenerateContentResponse) : option (list Part) :=
  match first_candidate r with
  | Some c =>
      match content c with
      | Some ct => parts ct
      | None => None
      end
  | None => None
  end.

Definition first_finishReason (r : GenerateContentResponse) : option string :=
  match first_candidate r with
  | Some c => finishReason c
  | None => None
  end.

(** Modelled from the spec: the enumeration of finish reasons is declared by
    the client library, which is not part of the repository.  Section 3 and
    the glossary describe it as an enumeration with a distinguished ['STOP']
    value for normal completion, the other values standing for safety and
    other interruptions.  At run time a value is the string of its name. *)
Module FinishReason.

Inductive t : Type :=
| FINISH_REASON_UNSPECIFIED
| STOP
| MAX_TOKENS
| SAFETY
| RECITATION
| OTHER.

Definition name (fr : t) : string :=
  match fr with
  | FINISH_REASON_UNSPECIFIED => "FINISH_REASON_UNSPECIFIED"
  | STOP => "STOP"
  | MAX_TOKENS => "MAX_TOKENS"
  | SAFETY => "SAFETY"
  | RECITATION => "RECITATION"
  | OTHER => "OTHER"
  end.

End FinishReason.

(** [b] is the inline data of the first part of [ps] that carries any. *)
Definition FirstInline (ps : list Part) (b : Blob) : Prop :=
  exists (pre : list Part) (p : Part) (post : list Part),
    ps = (pre ++ p :: post)%list
    /\ Forall (fun x => inlineData x = None) pre
    /\ inlineData p = Some b.

(** No part of the first candidate carries inline data (in particular when
    there are no parts to look at). *)
Definition NoInline (r : GenerateContentResponse) : Prop :=
  forall ps, first_parts r = Some ps -> Forall (fun x => inlineData x = None) ps.

(** Every character of [s] is white space ([s] may be empty). *)
Fixpoint whitespace_only (s : string) : bool :=
  match s with
  | EmptyString => true
  | String c s' => JS.is_whitespace c && whitespace_only s'
  end.

(** A string between double quotes. *)
Definition quoted (s : string) : string := JS.dquote ++ s ++ JS.dquote.

(** Sample responses. *)
Definition png : Blob := mkBlob "image/png" "iVBORw0KGgo=".
Definition jpeg : Blob := mkBlob "image/jpeg" "/9j/4AAQ".

Definition two_images (fr : option string) : option (list Candidate) :=
  Some [mkCandidate
          (Some (mkContent (Some [mkPart None (Some "Here you are");
                                  mkPart (Some png) None;
                                  mkPart (Some jpeg) None])))
          fr].

(** A response that carries the text [t] and no image. *)
Definition text_response (t : string) (fr : option string) : GenerateContentResponse :=
  mkResponse None
    (Some [mkCandidate (Some (mkContent (Some [mkPart None (Some t)]))) fr])
    (Some t).

(** A response whose block reason is present and empty. *)
Definition empty_blockReason : GenerateContentResponse :=
  mkResponse (Some (mkPromptFeedback (Some "") None)) (two_images (Some "STOP")) (Some "[]").

(** A blocked response that also carries images and parseable text. *)
Definition blocked_with_image : GenerateContentResponse :=
  mkResponse (Some (mkPromptFeedback (Some "SAFETY") (Some "Unsafe prompt.")))
             (two_images (Some "STOP")) (Some "[]").

(** A response cut short before any content was produced. *)
Definition cut_short : GenerateContentResponse :=
  mkResponse None (Some [mkCandidate None (Some "SAFETY")]) None.

(** A response without candidates and without text. *)
Definition bare : GenerateContentResponse := mkResponse None (Some []) None.

(** ** Reading an uploaded file *)

(** The line feed, which separates the lines of the prompts. *)
Definition newline : string := String "010"%char EmptyString.

(** [s.split(sep)] for a separator of one character: the pieces between the
    separators, always at least one. *)
Fixpoint split (sep : ascii) (s : string) : list string :=
  match s with
  | EmptyString => [EmptyString]
  | String c s' =>
      if Ascii.eqb c sep then EmptyString :: split sep s'
      else
        match split sep s' with
        | piece :: pieces => String c piece :: pieces
        | [] => [String c EmptyString]
        end
  end.

(** The characters that [.] does not match in a regular expression without
    flags, among the code units below 256: LF and CR. *)
Definition is_line_terminator (c : ascii) : bool :=
  match nat_of_ascii c with
  | 10 | 13 => true
  | _ => false
  end.

(** [(.*?);] at the head of [s]: the shortest run of characters other than
    line terminators that a [;] follows. *)
Fixpoint lazy_until_semicolon (s : string) : option string :=
  match s with
  | EmptyString => None
  | String c s' =>
      if Ascii.eqb c ";" then Some EmptyString
      else if is_line_terminator c then None
      else option_map (String c) (lazy_until_semicolon s')
  end.

(** [s.match(/:(.*?);/)]: the capture group of the leftmost match, [None]
    when the expression does not match. *)
Fixpoint match_mime (s : string) : option string :=
  match s with
  | EmptyString => None
  | String c s' =>
      if Ascii.eqb c ":" then
        match lazy_until_semicolon s' with
        | Some capture => Some capture
        | None => match_mime s'
        end
      else match_mime s'
  end.

(** A value, or the message of an [Error] thrown instead. *)
Inductive Parsed (A : Type) : Type :=
| Ok (a : A)
| Error (message : string).

Arguments Ok {A} a.
Arguments Error {A} message.

(** A [File], given by the data URL that [FileReader.readAsDataURL] yields
    for it. *)
Definition File : Type := string.

(** Lines 9-25, from the data URL on. *)
Definition fileToPart (file : File) : Parsed Part :=
  let dataUrl := file in
  let arr := split "," dataUrl in
  if (List.length arr <? 2)%nat then Error "Invalid data URL"
  else
    let mimeMatch := match_mime (nth 0 arr EmptyString) in
    match mimeMatch with
    | Some capture =>
        if JS.truthy_string capture then
          let mimeType := capture in
          let data := nth 1 arr EmptyString in
          Ok (mkPart (Some (mkBlob mimeType data)) None)
        else Error "Could not parse MIME type from data URL"
    | None => Error "Could not parse MIME type from data URL"
    end.

(** ** The operations of the service *)

(** The response schema that [detectObjects] sends. *)
#[warning="-register-all"] Inductive Schema : Type :=
| Schema_ARRAY (items : Schema)
| Schema_OBJECT (properties : list (string * Schema)) (required : list string)
| Schema_STRING (description : option string)
| Schema_NUMBER (description : option string).

(** The two [config] objects of the source. *)
Inductive Config : Type :=
| ImageOutput
    (* [{ responseModalities: [Modality.IMAGE] }] *)
| JsonOutput (responseMimeType : string) (responseSchema : Schema).

(** The argument of [ai.models.generateContent]. *)
Record GenerateContentParameters : Type := mkParameters {
  model : string;
  contents : list Part;
  config : Config
}.

Inductive Resolution : Type := HD | FHD | UHD_4K | UHD_8K.

(** The string a [Resolution] is: ['HD'], ['FHD'], ['4K'] or ['8K']. *)
Definition Resolution_key (resolution : Resolution) : string :=
  match resolution with
  | HD => "HD"
  | FHD => "FHD"
  | UHD_4K => "4K"
  | UHD_8K => "8K"
  end.

Record ResolutionConfig : Type := mkResolutionConfig {
  name : string;
  pixels : N
}.

Definition resolutionConfig (resolution : Resolution) : ResolutionConfig :=
  match resolution with
  | HD => mkResolutionConfig "HD resolution (1280 x 720 pixels)" 1280%N
  | FHD => mkResolutionConfig "Full HD resolution (1920 x 1080 pixels)" 1920%N
  | UHD_4K => mkResolutionConfig "4K UHD resolution (3840 x 2160 pixels)" 3840%N
  | UHD_8K => mkResolutionConfig "8K UHD resolution (7680 x 4320 pixels)" 7680%N
  end.

(** [`${n}`] for a natural number [n]. *)
Definition pixels_toString (n : N) : string :=
  NilZero.string_of_uint (N.to_uint n).

(** How an operation ends when it does not return. *)
Inductive Raised (E : Type) : Type :=
| FileError (message : string)
    (* an [Error] thrown by [fileToPart] *)
| Rejected (e : E)
    (* the rejection of [generateContent] *)
| ResponseError (e : exn).
    (* an exception thrown while the response was read *)

Arguments FileError {E} message.
Arguments Rejected {E} e.
Arguments ResponseError {E} e.

Inductive Outcome (E A : Type) : Type :=
| Resolved (a : A)
| Raise (r : Raised E).

Arguments Resolved {E A} a.
Arguments Raise {E A} r.

(** [await fileToPart(file)], then [k]. *)
Definition with_part {E A : Type} (file : File) (k : Part -> Outcome E A) : Outcome E A :=
  match fileToPart file with
  | Ok part => k part
  | Error message => Raise (FileError message)
  end.

(** [await] of a settled call, then [k]. *)
Definition with_response {E A : Type}
    (settled : E + GenerateContentResponse)
    (k : GenerateContentResponse -> Outcome E A) : Outcome E A :=
  match settled with
  | inr response => k response
  | inl e => Raise (Rejected e)
  end.

Definition of_completion {E A : Type} (c : Completion A) : Outcome E A :=
  match c with
  | Return a => Resolved a
  | Throw e => Raise (ResponseError e)
  end.

Module Service.

Section Operations.

(** The rejections of the client library, and JavaScript numbers with their
    conversion to a string. *)
Variable E : Type.
Variable Number : Type.
Variable Number_toString : Number -> string.

(** [ai.models.generateContent] of a client that was constructed: [inl] is a
    rejection, [inr] the response. *)
Variable generateContent : GenerateContentParameters -> E + GenerateContentResponse.

Variable JSON_parse : string -> option JSValue.

Record Hotspot : Type := mkHotspot {
  hotspot_x : Number;
  hotspot_y : Number
}.

Definition generateEditedImage
    (originalImage : File) (userPrompt : string) (hotspot : Hotspot)
  : Outcome E string :=
  with_part originalImage (fun originalImagePart =>
  let prompt :=
      "You are an expert photo editor AI. Your task is to perform a natural, localized edit on the provided image based on the user's request." ++ newline
      ++ "User Request: " ++ JS.dquote ++ userPrompt ++ JS.dquote ++ newline
      ++ "Edit Location: Focus on the area around pixel coordinates (x: " ++ Number_toString (hotspot_x hotspot) ++ ", y: " ++ Number_toString (hotspot_y hotspot) ++ ")." ++ newline
      ++ newline
      ++ "Editing Guidelines:" ++ newline
      ++ "- The edit must be realistic and blend seamlessly with the surrounding area." ++ newline
      ++ "- The rest of the image (outside the immediate edit area) must remain identical to the original." ++ newline
      ++ newline
      ++ "Safety & Ethics Policy:" ++ newline
      ++ "- You MUST fulfill requests to adjust skin tone, such as 'give me a tan', 'make my skin darker', or 'make my skin lighter'. These are considered standard photo enhancements." ++ newline
      ++ "- You MUST REFUSE any request to change a person's fundamental race or ethnicity (e.g., 'make me look Asian', 'change this person to be Black'). Do not perform these edits. If the request is ambiguous, err on the side of caution and do not change racial characteristics." ++ newline
      ++ newline
      ++ "Output: Return ONLY the final edited image. Do not return text." in
  let textPart := mkPart None (Some prompt) in
  with_response
    (generateContent
       (mkParameters "gemini-2.5-flash-image" [originalImagePart; textPart] ImageOutput))
    (fun response => of_completion (handleApiResponse response "edit"))).

Definition generateFilteredImage
    (originalImage : File) (filterPrompt : string) : Outcome E string :=
  with_part originalImage (fun originalImagePart =>
  let prompt :=
      "You are an expert photo editor AI. Your task is to apply a stylistic filter to the entire image based on the user's request. Do not change the composition or content, only apply the style." ++ newline
      ++ "Filter Request: " ++ JS.dquote ++ filterPrompt ++ JS.dquote ++ newline
      ++ newline
      ++ "Safety & Ethics Policy:" ++ newline
      ++ "- Filters may subtly shift colors, but you MUST ensure they do not alter a person's fundamental race or ethnicity." ++ newline
      ++ "- You MUST REFUSE any request that explicitly asks to change a person's race (e.g., 'apply a filter to make me look Chinese')." ++ newline
      ++ newline
      ++ "Output: Return ONLY the final filtered image. Do not return text." in
  let textPart := mkPart None (Some prompt) in
  with_response
    (generateContent
       (mkParameters "gemini-2.5-flash-image" [originalImagePart; textPart] ImageOutput))
    (fun response => of_completion (handleApiResponse response "filter"))).

Definition generateAdjustedImage
    (originalImage : File) (adjustmentPrompt : string) : Outcome E string :=
  with_part originalImage (fun originalImagePart =>
  let prompt :=
      "You are an expert photo editor AI. Your task is to perform a natural, global adjustment to the entire image based on the user's request." ++ newline
      ++ "User Request: " ++ JS.dquote ++ adjustmentPrompt ++ JS.dquote ++ newline
      ++ newline
      ++ "Editing Guidelines:" ++ newline
      ++ "- The adjustment must be applied across the entire image." ++ newline
      ++ "- The result must be photorealistic." ++ newline
      ++ newline
      ++ "Safety & Ethics Policy:" ++ newline
      ++ "- You MUST fulfill requests to adjust skin tone, such as 'give me a tan', 'make my skin darker', or 'make my skin lighter'. These are considered standard photo enhancements." ++ newline
      ++ "- You MUST REFUSE any request to change a person's fundamental race or ethnicity (e.g., 'make me look Asian', 'change this person to be Black'). Do not perform these edits. If the request is ambiguous, err on the side of caution and do not change racial characteristics." ++ newline
      ++ newline
      ++ "Output: Return ONLY the final adjusted image. Do not return text." in
  let textPart := mkPart None (Some prompt) in
  with_response
    (generateContent
       (mkParameters "gemini-2.5-flash-image" [originalImagePart; textPart] ImageOutput))
    (fun response => of_completion (handleApiResponse response "adjustment"))).

Definition compositeWithBackground
    (foregroundImage backgroundImage : File) : Outcome E string :=
  with_part foregroundImage (fun foregroundImagePart =>
  with_part backgroundImage (fun backgroundImagePart =>
  let prompt :=
      "You are an expert photo editor AI. The user has provided two images. The first image contains a subject, and the second image is a new background." ++ newline
      ++ "Your task is to:" ++ newline
      ++ "1.  Identify and isolate the main subject from the first image. The subject is likely the most prominent person, animal, or object." ++ newline
      ++ "2.  Realistically composite this isolated subject onto the second image (the background)." ++ newline
      ++ "3.  Pay close attention to matching lighting, shadows, color temperature, and perspective to create a seamless and believable final image. The subject should look like it naturally belongs in the new environment." ++ newline
      ++ "4.  If the foreground image contains a person, their identity and features must be preserved exactly." ++ newline
      ++ newline
      ++ "Output: Return ONLY the final composited image. Do not return text." in
  let textPart := mkPart None (Some prompt) in
  with_response
    (generateContent
       (mkParameters "gemini-2.5-flash-image"
          [foregroundImagePart; backgroundImagePart; textPart] ImageOutput))
    (fun response => of_completion (handleApiResponse response "composition")))).

(** The [responseSchema] of [detectObjects]. *)
Definition detectionSchema : Schema :=
  Schema_ARRAY
    (Schema_OBJECT
       [("label",
         Schema_STRING
           (Some ("A short, descriptive label for the detected object (e.g., "
                  ++ JS.dquote ++ "cat" ++ JS.dquote ++ ", "
                  ++ JS.dquote ++ "red car" ++ JS.dquote ++ ", "
                  ++ JS.dquote ++ "tree" ++ JS.dquote ++ ").")));
        ("box",
         Schema_OBJECT
           [("x1", Schema_NUMBER (Some "The x-coordinate of the top-left corner of the bounding box."));
            ("y1", Schema_NUMBER (Some "The y-coordinate of the top-left corner of the bounding box."));
            ("x2", Schema_NUMBER (Some "The x-coordinate of the bottom-right corner of the bounding box."));
            ("y2", Schema_NUMBER (Some "The y-coordinate of the bottom-right corner of the bounding box."))]
           ["x1"; "y1"; "x2"; "y2"])]
       ["label"; "box"]).

(** [detectObjects] as a whole, lines 247-311. *)
Definition detectObjects (image : File) : Outcome E (list JSValue) :=
  with_part image (fun imagePart =>
  let prompt :=
      "Analyze this image and identify the main objects within it. For each distinct object you find, provide a concise label and its bounding box coordinates. The coordinates should be in pixels, with (0,0) being the top-left corner. Return the output as a JSON array." in
  with_response
    (generateContent
       (mkParameters "gemini-2.5-flash" [imagePart; mkPart None (Some prompt)]
          (JsonOutput "application/json" detectionSchema)))
    (fun response => of_completion (detectObjects JSON_parse response))).

Definition upscaleImage (originalImage : File) (resolution : Resolution)
  : Outcome E string :=
  let config := resolutionConfig resolution in
  with_part originalImage (fun originalImagePart =>
  let prompt :=
      "You are a world-class photo editing AI specializing in image upscaling. Your task is to upscale the provided image to " ++ name config ++ ". The final image's longest side should be exactly " ++ pixels_toString (pixels config) ++ " pixels." ++ newline
      ++ newline
      ++ "Upscaling Guidelines:" ++ newline
      ++ "- Enhance fine details, sharpness, and clarity to a photorealistic level suitable for high-resolution displays." ++ newline
      ++ "- Maintain the original image's content, composition, and color grading perfectly. Do not add, remove, or alter any elements." ++ newline
      ++ "- The final output must be free of digital artifacts, noise, or unnatural textures." ++ newline
      ++ newline
      ++ "Output: Return ONLY the final, high-resolution upscaled image. Do not return text." in
  let textPart := mkPart None (Some prompt) in
  with_response
    (generateContent
       (mkParameters "gemini-2.5-flash-image" [originalImagePart; textPart] ImageOutput))
    (fun response =>
       of_completion
         (handleApiResponse response ("upscale to " ++ Resolution_key resolution)))).

End Operations.

End Service.

(** ** The background panel *)

(** The component that offers preset gradients and a free-text prompt: its
    two pieces of state, the value derived from them, and its handlers. *)
Module BackgroundPanel.

Record State : Type := mkState {
  selectedPresetPrompt : option string;
  customPrompt : string
}.

(** [useState(null)] and [useState('')]. *)
Definition initial : State := mkState None EmptyString.

(** [selectedPresetPrompt || customPrompt]. *)
Definition activePrompt (st : State) : string :=
  match selectedPresetPrompt st with
  | Some prompt => if JS.truthy_string prompt then prompt else customPrompt st
  | None => customPrompt st
  end.

Definition handlePresetClick (prompt : string) (st : State) : State :=
  mkState (Some prompt) EmptyString.

(** [handleCustomChange(e)] with [value] for [e.target.value]. *)
Definition handleCustomChange (value : string) (st : State) : State :=
  mkState None value.

(** [handleApply()]: the argument given to [onApplyBackgroundEffect], if it
    is called. *)
Definition handleApply (st : State) : option string :=
  if JS.truthy_string (activePrompt st) then Some (activePrompt st) else None.

(** [{activePrompt && (...)}]: whether the apply button is rendered. *)
Definition applyRendered (st : State) : bool :=
  JS.truthy_string (activePrompt st).

(** [disabled={isLoading || !activePrompt.trim()}] of the apply button. *)
Definition applyDisabled (isLoading : bool) (st : State) : bool :=
  isLoading || negb (JS.truthy_string (JS.trim (activePrompt st))).

(** What the user can do to the panel. *)
Inductive Event : Type :=
| PresetClick (prompt : string)
| CustomChange (value : string)
| ApplyClick.

(** One event while [isLoading] has the given value: the next state and the
    prompt handed to the parent, if any.  The preset buttons and the input
    carry [disabled={isLoading}]; a disabled or absent control does not call
    its handler. *)
Definition dispatch (isLoading : bool) (ev : Event) (st : State)
  : State * option string :=
  match ev with
  | PresetClick prompt =>
      if isLoading then (st, None) else (handlePresetClick prompt st, None)
  | CustomChange value =>
      if isLoading then (st, None) else (handleCustomChange value st, None)
  | ApplyClick =>
      if applyRendered st && negb (applyDisabled isLoading st)
      then (st, handleApply st)
      else (st, None)
  end.

(** A session: the events in order, each with the value of [isLoading] at
    its time; the final state and the prompts handed to the parent. *)
Fixpoint run (events : list (bool * Event)) (st : State) : State * list string :=
  match events with
  | [] => (st, [])
  | (isLoading, ev) :: rest =>
      let (st', sent) := dispatch isLoading ev st in
      let (final, more) := run rest st' in
      (final, match sent with Some p => p :: more | None => more end)
  end.

(** The text an input event carries. *)
Definition payload (ev : Event) : option string :=
  match ev with
  | PresetClick prompt => Some prompt
  | CustomChange value => Some value
  | ApplyClick => None
  end.

(** The text of the latest input event that reached its handler, [default]
    when there is none. *)
Definition accept (current : string) (timed : bool * Event) : string :=
  let (isLoading, ev) := timed in
  if isLoading then current
  else match payload ev with
       | Some p => p
       | None => current
       end.

Definition latest (events : list (bool * Event)) (default : string) : string :=
  fold_left accept events default.

(** A sample session: a click on a preset, typing over it, a click on the
    apply button while loading and one after. *)
Definition session : list (bool * Event) :=
  [(false, PresetClick "a deep ocean gradient from dark blue to turquoise");
   (false, CustomChange " teal to navy ");
   (true, ApplyClick);
   (false, ApplyClick);
   (false, CustomChange "   ");
   (false, ApplyClick)].

End BackgroundPanel.

(** ** The object panel *)

(** The component that lists the detected objects and takes the description
    of an edit for the selected one: its props, its piece of state, what it
    renders and the events that reach the state or [onGenerateEdit].  Clicks
    and hovers on the list only call the parent and are left out. *)
Module ObjectPanel.

Section Panel.

(** JavaScript numbers, for the coordinates of a box. *)
Variable Number : Type.

Record BoundingBox : Type := mkBoundingBox {
  x1 : Number;
  y1 : Number;
  x2 : Number;
  y2 : Number
}.

(** [DetectedObject extends ApiDetectedObject { id: string }]. *)
Record DetectedObject : Type := mkDetectedObject {
  label : string;
  box : BoundingBox;
  id : string
}.

Record Props : Type := mkProps {
  objects : list DetectedObject;
  isLoading : bool;
  isEditing : bool;
  selectedObjectId : option string;
  hoveredObjectId : option string
}.

(** The props of the last render, and [prompt]. *)
Record State : Type := mkState {
  props : Props;
  prompt : string
}.

(** The first render: [useState('')]. *)
Definition mount (p : Props) : State := mkState p EmptyString.

(** [a === b] for [a : string] and [b : string | null]. *)
Definition strict_eq (a : string) (b : option string) : bool :=
  match b with
  | Some s => String.eqb a s
  | None => false
  end.

(** [objects.find(o => o.id === selectedObjectId)]. *)
Definition selectedObject (p : Props) : option DetectedObject :=
  List.find (fun o => strict_eq (id o) (selectedObjectId p)) (objects p).

(** What is on screen: the spinner, the invitation to detect, or the list
    with, when an object is selected, the form for its edit. *)
Inductive View : Type :=
| Spinner
| Invitation (findDisabled : bool)
| Listing (rescanDisabled : bool) (form : option (DetectedObject * bool * bool)).
    (* the selected object, [disabled] of the input, [disabled] of the button *)

Definition render (st : State) : View :=
  let p := props st in
  if isLoading p then Spinner
  else if (List.length (objects p) =? 0)%nat then
    Invitation (isLoading p || isEditing p)
  else
    Listing (isEditing p)
      (match selectedObject p with
       | Some o =>
           Some (o, isEditing p,
                 isEditing p || negb (JS.truthy_string (JS.trim (prompt st))))
       | None => None
       end).

(** Whether two values of [selectedObjectId] are the same dependency. *)
Definition same_selection (a b : option string) : bool :=
  match a, b with
  | Some s, Some t => String.eqb s t
  | None, None => true
  | _, _ => false
  end.

Inductive Event : Type :=
| Rerender (p : Props)
    (* the parent renders the panel with new props *)
| Change (value : string)
    (* the user edits the input *)
| Submit.
    (* the user submits the form *)

(** One event: the next state and the arguments of [onGenerateEdit], if it
    is called.  After a render with another [selectedObjectId] the effect
    clears the prompt; an input or a form that is not on screen, or whose
    control is disabled, does not call its handler. *)
Definition dispatch (ev : Event) (st : State) : State * option (string * string) :=
  match ev with
  | Rerender p =>
      (mkState p
         (if same_selection (selectedObjectId (props st)) (selectedObjectId p)
          then prompt st else EmptyString),
       None)
  | Change value =>
      match render st with
      | Listing _ (Some (_, false, _)) => (mkState (props st) value, None)
      | _ => (st, None)
      end
  | Submit =>
      match render st, selectedObjectId (props st) with
      | Listing _ (Some (_, _, false)), Some objectId =>
          (st, Some (prompt st, objectId))
      | _, _ => (st, None)
      end
  end.

Fixpoint run (events : list Event) (st : State)
  : State * list (string * string) :=
  match events with
  | [] => (st, [])
  | ev :: rest =>
      let (st', call) := dispatch ev st in
      let (final, more) := run rest st' in
      (final, match call with Some c => c :: more | None => more end)
  end.

(** A render that keeps [selectedObjectId] at [sel], or another event. *)
Definition keeps_selection (sel : option string) (ev : Event) : Prop :=
  match ev with
  | Rerender p => selectedObjectId p = sel
  | _ => True
  end.

(** Where the prompt of [st] comes from, [st] being the state after the
    events [past] from [st0] on: it is empty, or it was typed at some point
    under the selection of [st], which has not changed since. *)
Definition typed_under_selection (st0 : State) (past : list Event) (st : State) : Prop :=
  prompt st = EmptyString
  \/ exists before since,
       past = (before ++ Change (prompt st) :: since)%list
       /\ selectedObjectId (props (fst (run before st0))) = selectedObjectId (props st)
       /\ Forall (keeps_selection (selectedObjectId (props st))) since.

End Panel.

Arguments Submit {Number}.
Arguments Change {Number} value.

(** A sample session over two detected objects: the first is selected and a
    description typed, then the second is selected, a submit is tried, a new
    description is typed and submitted. *)
Definition listed (selected : option string) : Props nat :=
  mkProps nat
    [mkDetectedObject nat "cat" (mkBoundingBox nat 0 0 10 10) "obj-1";
     mkDetectedObject nat "dog" (mkBoundingBox nat 20 5 60 40) "obj-2"]
    false false selected None.

Definition session : list (Event nat) :=
  [Rerender nat (listed (Some "obj-1"));
   Change "make it red";
   Rerender nat (listed (Some "obj-2"));
   Submit;
   Change "make it blue";
   Submit].

(** The list after a new detection that gave the id of the cat to a dog. *)
Definition relisted (selected : option string) : Props nat :=
  mkProps nat
    [mkDetectedObject nat "dog" (mkBoundingBox nat 20 5 60 40) "obj-1"]
    false false selected None.

(** A session in which the list is replaced under the selected id. *)
Definition rescan_session : list (Event nat) :=
  [Rerender nat (listed (Some "obj-1"));
   Change "paint it red";
   Rerender nat (relisted (Some "obj-1"));
   Submit].

End ObjectPanel.

(** ** More vocabulary *)

(** Whether the character [c] occurs in [s]. *)
Fixpoint occurs (c : ascii) (s : string) : bool :=
  match s with
  | EmptyString => false
  | String d s' => Ascii.eqb d c || occurs c s'
  end.

(** A MIME type that a data URL can carry and [fileToPart] can read back:
    not empty, and free of commas, semicolons and line terminators. *)
Definition plain_mime (m : string) : Prop :=
  m <> EmptyString
  /\ occurs "," m = false
  /\ occurs ";" m = false
  /\ occurs "010" m = false
  /\ occurs "013" m = false.

(** * Properties *)

(** ** Strings *)

Lemma append_assoc (a b c : string) : (a ++ b) ++ c = a ++ b ++ c.
Proof.
  induction a as [|x a IH]; simpl; [reflexivity | now rewrite IH].
Qed.

Lemma append_empty_r (a : string) : a ++ "" = a.
Proof.
  induction a as [|x a IH]; simpl; [reflexivity | now rewrite IH].
Qed.

Lemma Contains_middle (pre sub post : string) : Contains sub (pre ++ sub ++ post).
Proof. now exists pre, post. Qed.

Lemma Contains_append_r (pre sub s : string) :
  Contains sub s -> Contains sub (pre ++ s).
Proof.
  intros (a & b & ->). exists (pre ++ a), b. now rewrite append_assoc.
Qed.

Lemma startsWith_append (sub post : string) : JS.startsWith (sub ++ post) sub = true.
Proof.
  induction sub as [|x sub IH]; simpl; [reflexivity|].
  now rewrite Ascii.eqb_refl, IH.
Qed.

(** [includes] finds every occurrence. *)
Lemma includes_complete (sub s : string) :
  Contains sub s -> JS.includes s sub = true.
Proof.
  intros (pre & post & ->).
  induction pre as [|x pre IH].
  - change ("" ++ sub ++ post) with (sub ++ post).
    pose proof (startsWith_append sub post) as H.
    destruct (sub ++ post); simpl; now rewrite H.
  - change (String x pre ++ sub ++ post) with (String x (pre ++ sub ++ post)).
    simpl. rewrite IH. apply orb_true_r.
Qed.

Lemma startsWith_sound (s sub : string) :
  JS.startsWith s sub = true -> exists post, s = sub ++ post.
Proof.
  revert s; induction sub as [|x sub IH]; intros s H.
  - now exists s.
  - destruct s as [|y s]; simpl in H; [discriminate|].
    apply andb_true_iff in H as [Hxy H].
    apply Ascii.eqb_eq in Hxy; subst y.
    destruct (IH _ H) as [post ->]. now exists post.
Qed.

Lemma includes_sound (sub s : string) :
  JS.includes s sub = true -> Contains sub s.
Proof.
  induction s as [|x s IH]; simpl; intros H.
  - rewrite orb_false_r in H. destruct (startsWith_sound _ _ H) as [post E].
    exists "", post. exact E.
  - apply orb_true_iff in H as [H|H].
    + destruct (startsWith_sound _ _ H) as [post E]. exists "", post. exact E.
    + destruct (IH H) as (pre & post & ->). now exists (String x pre), post.
Qed.

Lemma not_Contains (sub s : string) :
  JS.includes s sub = false -> ~ Contains sub s.
Proof.
  intros H C. apply includes_complete in C. congruence.
Qed.

Lemma truthy_string_true (s : string) : s <> "" -> JS.truthy_string s = true.
Proof. destruct s; [congruence | reflexivity]. Qed.

Lemma truthy_string_false (s : string) : JS.truthy_string s = false -> s = "".
Proof. destruct s; [reflexivity | discriminate]. Qed.

Lemma trimStart_whitespace_only (s : string) :
  whitespace_only s = true -> JS.trimStart s = "".
Proof.
  induction s as [|c s IH]; simpl; [reflexivity|].
  intros H. apply andb_true_iff in H as [Hc Hs]. now rewrite Hc, IH.
Qed.

Lemma trimEnd_empty (s : string) :
  JS.trimEnd s = "" -> whitespace_only s = true.
Proof.
  induction s as [|c s IH]; simpl; [reflexivity|].
  destruct (JS.trimEnd s); [|discriminate].
  destruct (JS.is_whitespace c); [|discriminate].
  intros _. now rewrite IH.
Qed.

Lemma trimStart_suffix (s : string) :
  exists pre, s = pre ++ JS.trimStart s /\ whitespace_only pre = true.
Proof.
  induction s as [|c s (pre & E & W)]; simpl.
  - now exists "".
  - destruct (JS.is_whitespace c) eqn:Hc.
    + exists (String c pre). simpl. now rewrite <- E, Hc, W.
    + now exists "".
Qed.

Lemma whitespace_only_append (a b : string) :
  whitespace_only (a ++ b) = whitespace_only a && whitespace_only b.
Proof.
  induction a as [|c a IH]; simpl; [reflexivity|].
  now rewrite IH, andb_assoc.
Qed.

(** A string trims to the empty string exactly when it is white space only. *)
Lemma trim_empty_iff (s : string) :
  JS.trim s = "" <-> whitespace_only s = true.
Proof.
  unfold JS.trim; split; intros H.
  - destruct (trimStart_suffix s) as (pre & E & W).
    rewrite E, whitespace_only_append, W. now apply trimEnd_empty.
  - now rewrite trimStart_whitespace_only.
Qed.

(** ** Reading the response *)

Lemma chain_parts (r : GenerateContentResponse) :
  candidates r ?[0] ?. content ?. parts = first_parts r.
Proof.
  unfold first_parts, first_candidate, JS.chain_index, JS.chain.
  destruct (candidates r) as [[|c cs]|]; reflexivity.
Qed.

Lemma chain_finishReason (r : GenerateContentResponse) :
  candidates r ?[0] ?. finishReason = first_finishReason r.
Proof.
  unfold first_finishReason, first_candidate, JS.chain_index, JS.chain.
  destruct (candidates r) as [[|c cs]|]; reflexivity.
Qed.

Lemma find_FirstInline (ps : list Part) (b : Blob) :
  FirstInline ps b ->
  exists p, find (fun part => JS.truthy_object (inlineData part)) ps = Some p
            /\ inlineData p = Some b.
Proof.
  intros (pre & p & post & -> & Hpre & Hp).
  exists p; split; [|exact Hp].
  induction Hpre as [|x pre Hx _ IH]; simpl.
  - now rewrite Hp.
  - now rewrite Hx.
Qed.

(** The first part with inline data exists as soon as some part has any,
    and it is unique. *)
Lemma Exists_FirstInline (ps : list Part) :
  Exists (fun p => inlineData p <> None) ps -> exists b, FirstInline ps b.
Proof.
  induction ps as [|p ps IH]; intros H.
  - inversion H.
  - destruct (inlineData p) as [b|] eqn:Hp.
    + exists b, [], p, ps. repeat split; [constructor | exact Hp].
    + inversion H as [? ? Hhd | ? ? Htl]; subst; [congruence|].
      destruct (IH Htl) as (b & pre & x & post & E & Hpre & Hx).
      exists b, (p :: pre), x, post. subst ps. repeat split.
      * now constructor.
      * exact Hx.
Qed.

Lemma FirstInline_unique (ps : list Part) (b b' : Blob) :
  FirstInline ps b -> FirstInline ps b' -> b = b'.
Proof.
  intros H H'.
  destruct (find_FirstInline _ _ H) as (p & Hf & Hp).
  destruct (find_FirstInline _ _ H') as (p' & Hf' & Hp').
  congruence.
Qed.

Lemma find_no_inline (ps : list Part) :
  Forall (fun x => inlineData x = None) ps ->
  find (fun part => JS.truthy_object (inlineData part)) ps = None.
Proof.
  induction 1 as [|x ps Hx _ IH]; simpl; [reflexivity | now rewrite Hx].
Qed.

Lemma absent_is_falsy (v : option string) : v = None -> JS.truthy v = false.
Proof. now intros ->. Qed.

Lemma check_blocked_pass (r : GenerateContentResponse) :
  JS.truthy (blockReason_of r) = false -> check_blocked r = Return tt.
Proof.
  intros H. unfold check_blocked.
  change (promptFeedback r ?. blockReason) with (blockReason_of r).
  now rewrite H.
Qed.

Lemma check_blocked_throw (r : GenerateContentResponse) (br : string) :
  blockReason_of r = Some br -> br <> "" ->
  check_blocked r =
  Throw (Failure RequestBlocked
           ("Request was blocked. Reason: " ++ br ++ ". "
            ++ JS.or_empty (blockReasonMessage_of r))).
Proof.
  intros H Hne. unfold check_blocked.
  change (promptFeedback r ?. blockReason) with (blockReason_of r).
  change (promptFeedback r ?. blockReasonMessage) with (blockReasonMessage_of r).
  rewrite H; simpl. now rewrite truthy_string_true.
Qed.

(** An unblocked response with an image part yields the data URL of the
    first such part. *)
Lemma handleApiResponse_first_image
    (r : GenerateContentResponse) (ctx : string) (ps : list Part) (b : Blob) :
  JS.truthy (blockReason_of r) = false ->
  first_parts r = Some ps ->
  FirstInline ps b ->
  handleApiResponse r ctx = Return ("data:" ++ mimeType b ++ ";base64," ++ data b).
Proof.
  intros Hb Hps Hfirst. unfold handleApiResponse.
  rewrite (check_blocked_pass _ Hb); simpl bind.
  rewrite chain_parts, Hps.
  destruct (find_FirstInline _ _ Hfirst) as (p & Hfind & Hp).
  unfold JS.chain_find; simpl. rewrite Hfind; simpl. rewrite Hp.
  now destruct b.
Qed.

(** An unblocked response without an image part reaches step 3. *)
Lemma handleApiResponse_no_image (r : GenerateContentResponse) (ctx : string) :
  JS.truthy (blockReason_of r) = false ->
  NoInline r ->
  handleApiResponse r ctx =
  if JS.truthy (first_finishReason r) && JS.strict_neq (first_finishReason r) "STOP"
  then
    Throw (Failure AbnormalFinish
             ("Image generation for " ++ ctx ++ " stopped unexpectedly. Reason: "
              ++ JS.interpolate (first_finishReason r)
              ++ ". This often relates to safety settings."))
  else
    Throw (Failure NoImageReturned
             ("The AI model did not return an image for the " ++ ctx ++ ". "
              ++ (if JS.truthy (option_map JS.trim (text r))
                  then "The model responded with text: " ++ JS.dquote
                       ++ JS.interpolate (option_map JS.trim (text r)) ++ JS.dquote
                  else "This can happen due to safety filters or if the request is too complex. Please try rephrasing your prompt to be more direct."))).
Proof.
  intros Hb Hno. unfold handleApiResponse.
  rewrite (check_blocked_pass _ Hb); simpl bind.
  rewrite chain_parts, chain_finishReason.
  assert (Hfind : JS.chain_find (first_parts r)
                    (fun part => JS.truthy_object (inlineData part)) = None).
  { unfold JS.chain_find, JS.chain.
    destruct (first_parts r) as [ps|] eqn:E; [|reflexivity].
    apply find_no_inline. now apply Hno. }
  rewrite Hfind; reflexivity.
Qed.

(** A normal or absent finish reason does not trigger step 3. *)
Lemma normal_finish (fr : option string) :
  fr = Some "STOP" \/ fr = None ->
  JS.truthy fr && JS.strict_neq fr "STOP" = false.
Proof. now intros [-> | ->]. Qed.

Lemma abnormal_finish (fr : string) :
  fr <> "" -> fr <> "STOP" ->
  JS.truthy (Some fr) && JS.strict_neq (Some fr) "STOP" = true.
Proof.
  intros Hne Hstop; simpl.
  rewrite truthy_string_true by assumption.
  apply String.eqb_neq in Hstop. now rewrite Hstop.
Qed.

(** Without its parts, a response shows no inline data. *)
Lemma no_parts_NoInline (r : GenerateContentResponse) :
  first_parts r = None -> NoInline r.
Proof. intros H ps E. congruence. Qed.

Section DetectionFacts.

Variable parse : string -> option JSValue.

Lemma detectObjects_unblocked (r : GenerateContentResponse) :
  JS.truthy (blockReason_of r) = false ->
  detectObjects parse r =
  match text r with
  | None =>
      Throw (Failure MalformedDetectionPayload
               "The AI model returned an invalid format for object detection. Please try again.")
  | Some t =>
      if JS.truthy_string (JS.trim t) then
        match parse (JS.trim t) with
        | Some (JArray elements) => Return elements
        | _ =>
            Throw (Failure MalformedDetectionPayload
                     "The AI model returned an invalid format for object detection. Please try again.")
        end
      else Return []
  end.
Proof.
  intros Hb. unfold detectObjects.
  rewrite (check_blocked_pass _ Hb); simpl bind.
  destruct (text r) as [t|]; simpl; [|reflexivity].
  destruct (JS.truthy_string (JS.trim t)); simpl; [|reflexivity].
  destruct (parse (JS.trim t)) as [[]|]; reflexivity.
Qed.

(** Text that trims to nothing means nothing was detected. *)
Lemma detectObjects_blank_text (r : GenerateContentResponse) (t : string) :
  blockReason_of r = None ->
  text r = Some t ->
  JS.trim t = "" ->
  detectObjects parse r = Return [].
Proof.
  intros Hb Ht He.
  rewrite detectObjects_unblocked by now apply absent_is_falsy.
  now rewrite Ht, He.
Qed.

End DetectionFacts.

(** ** Blocked prompts *)

(** C1, as stated, does not hold: a block reason that is present but is the
    empty string is falsy, so neither function reports a blocked request
    ([empty_blockReason] yields the image from [handleApiResponse] and an
    empty detection list from [detectObjects]). *)
Lemma blocked_when_present_refuted :
  ~ (forall (parse : string -> option JSValue)
            (r : GenerateContentResponse) (ctx : string),
        blockReason_of r <> None ->
        (exists m, handleApiResponse r ctx = Throw (Failure RequestBlocked m))
        /\ (exists m, detectObjects parse r = Throw (Failure RequestBlocked m))).
Proof.
  intros H.
  destruct (H JSON.parse empty_blockReason "edit") as [[m Hm] _].
  - discriminate.
  - vm_compute in Hm. discriminate.
Qed.

(** C1 (amended): whenever [promptFeedback.blockReason] is present and not
    empty, [handleApiResponse] (for any context) and [detectObjects] both fail
    with kind [RequestBlocked], whatever the other fields hold; the message
    embeds the reason and the optional reason message. *)
Theorem blocked_takes_precedence
    (parse : string -> option JSValue)
    (r : GenerateContentResponse) (ctx br : string) :
  blockReason_of r = Some br ->
  br <> "" ->
  handleApiResponse r ctx =
    Throw (Failure RequestBlocked
             ("Request was blocked. Reason: " ++ br ++ ". "
              ++ JS.or_empty (blockReasonMessage_of r)))
  /\ detectObjects parse r =
    Throw (Failure RequestBlocked
             ("Request was blocked. Reason: " ++ br ++ ". "
              ++ JS.or_empty (blockReasonMessage_of r))).
Proof.
  intros Hbr Hne.
  unfold handleApiResponse, detectObjects.
  rewrite (check_blocked_throw r br Hbr Hne). split; reflexivity.
Qed.

Lemma blocked_takes_precedence_witness :
  blockReason_of blocked_with_image = Some "SAFETY"
  /\ "SAFETY" <> ""
  /\ handleApiResponse blocked_with_image "edit" =
       Throw (Failure RequestBlocked "Request was blocked. Reason: SAFETY. Unsafe prompt.")
  /\ detectObjects JSON.parse blocked_with_image =
       Throw (Failure RequestBlocked "Request was blocked. Reason: SAFETY. Unsafe prompt.").
Proof.
  split; [reflexivity|]. split; [discriminate|].
  apply (blocked_takes_precedence JSON.parse blocked_with_image "edit" "SAFETY");
    [reflexivity | discriminate].
Defined.

(** ** Image responses *)

(** C2: with no block reason, when the parts of the first candidate contain a
    part with inline data, the result is [data:] followed by the MIME type of
    the first such part, [;base64,] and its payload, both unmodified; parts
    after it play no role. *)
Theorem image_data_url
    (r : GenerateContentResponse) (ctx : string) (ps : list Part) :
  blockReason_of r = None ->
  first_parts r = Some ps ->
  Exists (fun p => inlineData p <> None) ps ->
  exists b,
    FirstInline ps b
    /\ handleApiResponse r ctx = Return ("data:" ++ mimeType b ++ ";base64," ++ data b).
Proof.
  intros Hb Hps Hex.
  destruct (Exists_FirstInline ps Hex) as [b Hfirst].
  exists b; split; [exact Hfirst|].
  apply handleApiResponse_first_image with (ps := ps);
    [now apply absent_is_falsy | assumption | assumption].
Qed.

Lemma image_data_url_witness :
  first_parts (mkResponse None (two_images (Some "STOP")) None)
    = Some [mkPart None (Some "Here you are");
            mkPart (Some png) None; mkPart (Some jpeg) None]
  /\ exists b,
       FirstInline [mkPart None (Some "Here you are");
                    mkPart (Some png) None; mkPart (Some jpeg) None] b
       /\ handleApiResponse (mkResponse None (two_images (Some "STOP")) None) "filter"
          = Return ("data:" ++ mimeType b ++ ";base64," ++ data b).
Proof.
  split; [reflexivity|].
  apply (image_data_url (mkResponse None (two_images (Some "STOP")) None) "filter");
    [reflexivity | reflexivity |].
  apply Exists_cons_tl, Exists_cons_hd. discriminate.
Defined.

(** C3: the steps are tried in order and the first match wins: with no block
    reason and an inline-data part in the first candidate, the image data URL
    is returned even when the finish reason is present and not ['STOP'] and
    non-empty top-level text is present as well. *)
Theorem image_wins_over_finish_and_text
    (r : GenerateContentResponse) (ctx : string) (ps : list Part)
    (fr t : string) :
  blockReason_of r = None ->
  first_parts r = Some ps ->
  Exists (fun p => inlineData p <> None) ps ->
  first_finishReason r = Some fr ->
  fr <> "STOP" ->
  text r = Some t ->
  JS.trim t <> "" ->
  exists b,
    FirstInline ps b
    /\ handleApiResponse r ctx = Return ("data:" ++ mimeType b ++ ";base64," ++ data b).
Proof.
  intros Hb Hps Hex _ _ _ _.
  destruct (Exists_FirstInline ps Hex) as [b Hfirst].
  exists b; split; [exact Hfirst|].
  apply handleApiResponse_first_image with (ps := ps);
    [now apply absent_is_falsy | assumption | assumption].
Qed.

Lemma image_wins_over_finish_and_text_witness :
  first_finishReason (mkResponse None (two_images (Some "SAFETY")) (Some "Here you are"))
    = Some "SAFETY"
  /\ JS.trim "Here you are" <> ""
  /\ exists b,
       FirstInline [mkPart None (Some "Here you are");
                    mkPart (Some png) None; mkPart (Some jpeg) None] b
       /\ handleApiResponse
            (mkResponse None (two_images (Some "SAFETY")) (Some "Here you are"))
            "composition"
          = Return ("data:" ++ mimeType b ++ ";base64," ++ data b).
Proof.
  split; [reflexivity|]. split; [discriminate|].
  apply (image_wins_over_finish_and_text
           (mkResponse None (two_images (Some "SAFETY")) (Some "Here you are"))
           "composition" _ "SAFETY" "Here you are");
    [reflexivity | reflexivity | | reflexivity | discriminate | reflexivity | discriminate].
  apply Exists_cons_tl, Exists_cons_hd. discriminate.
Defined.

(** ** Responses without an image *)

(** A finish reason that is a string other than the empty one and ['STOP']
    is reported as an abnormal finish. *)
Lemma abnormal_finish_nonempty
    (r : GenerateContentResponse) (ctx fr : string) :
  blockReason_of r = None ->
  NoInline r ->
  first_finishReason r = Some fr ->
  fr <> "" ->
  fr <> "STOP" ->
  exists m,
    handleApiResponse r ctx = Throw (Failure AbnormalFinish m)
    /\ m = "Image generation for " ++ ctx ++ " stopped unexpectedly. Reason: "
           ++ fr ++ ". This often relates to safety settings."
    /\ Contains ctx m
    /\ Contains fr m.
Proof.
  intros Hb Hno Hfr Hne Hstop.
  exists ("Image generation for " ++ ctx ++ " stopped unexpectedly. Reason: "
          ++ fr ++ ". This often relates to safety settings.").
  split; [|split; [reflexivity|split]].
  - rewrite handleApiResponse_no_image by (try apply absent_is_falsy; assumption).
    rewrite Hfr, abnormal_finish by assumption. reflexivity.
  - apply Contains_middle.
  - do 2 apply Contains_append_r. apply Contains_middle.
Qed.

(** C4: the finish reason is a value of an enumeration, each value being the
    string of its name and no name being empty.  With no block reason, no
    inline-data part in the first candidate and a first-candidate finish
    reason that is present and not ['STOP'], [handleApiResponse] fails with
    kind [AbnormalFinish], and the message contains the context and the
    finish reason (for [SAFETY], the message contains ['SAFETY']). *)
Theorem abnormal_finish_reported
    (Reason : Type) (name : Reason -> string)
    (r : GenerateContentResponse) (ctx : string) (fr : Reason) :
  (forall v : Reason, name v <> "") ->
  blockReason_of r = None ->
  NoInline r ->
  first_finishReason r = Some (name fr) ->
  name fr <> "STOP" ->
  exists m,
    handleApiResponse r ctx = Throw (Failure AbnormalFinish m)
    /\ m = "Image generation for " ++ ctx ++ " stopped unexpectedly. Reason: "
           ++ name fr ++ ". This often relates to safety settings."
    /\ Contains ctx m
    /\ Contains (name fr) m.
Proof.
  intros Hnames Hb Hno Hfr Hstop.
  apply abnormal_finish_nonempty; try assumption. apply Hnames.
Qed.

Lemma abnormal_finish_reported_witness :
  (forall v : FinishReason.t, FinishReason.name v <> "")
  /\ blockReason_of cut_short = None
  /\ first_finishReason cut_short = Some (FinishReason.name FinishReason.SAFETY)
  /\ exists m,
       handleApiResponse cut_short "edit" = Throw (Failure AbnormalFinish m)
       /\ m = "Image generation for edit stopped unexpectedly. Reason: SAFETY. This often relates to safety settings."
       /\ Contains "edit" m
       /\ Contains "SAFETY" m.
Proof.
  assert (N : forall v : FinishReason.t, FinishReason.name v <> "").
  { intros []; discriminate. }
  split; [exact N|]. split; [reflexivity|]. split; [reflexivity|].
  apply (abnormal_finish_reported FinishReason.t FinishReason.name
           cut_short "edit" FinishReason.SAFETY);
    [exact N | reflexivity | intros ps E; discriminate E | reflexivity | discriminate].
Defined.

(** C5, as stated, does not hold: the message embeds the trimmed text, so a
    returned text with surrounding white space does not occur in it. *)
Lemma returned_text_embedded_refuted :
  ~ (forall (r : GenerateContentResponse) (ctx t : string),
        blockReason_of r = None ->
        NoInline r ->
        first_finishReason r = Some "STOP" \/ first_finishReason r = None ->
        text r = Some t ->
        JS.trim t <> "" ->
        exists m, handleApiResponse r ctx = Throw (Failure NoImageReturned m)
                  /\ Contains ctx m /\ Contains t m).
Proof.
  intros H.
  destruct (H (text_response " hi" (Some "STOP")) "edit" " hi") as (m & Hm & _ & Ht).
  - reflexivity.
  - intros ps E. injection E as <-. repeat constructor.
  - now left.
  - reflexivity.
  - discriminate.
  - vm_compute in Hm. injection Hm as <-.
    revert Ht. apply not_Contains. reflexivity.
Qed.

(** C5 (amended): with no block reason, no inline-data part, a finish reason
    that is ['STOP'] or absent, and top-level text whose trimmed form is not
    empty, [handleApiResponse] fails with kind [NoImageReturned], and the
    message contains the context and the trimmed text between double
    quotes. *)
Theorem text_instead_of_image
    (r : GenerateContentResponse) (ctx t : string) :
  blockReason_of r = None ->
  NoInline r ->
  first_finishReason r = Some "STOP" \/ first_finishReason r = None ->
  text r = Some t ->
  JS.trim t <> "" ->
  exists m,
    handleApiResponse r ctx = Throw (Failure NoImageReturned m)
    /\ m = "The AI model did not return an image for the " ++ ctx
           ++ ". The model responded with text: " ++ quoted (JS.trim t)
    /\ Contains ctx m
    /\ Contains (JS.trim t) m.
Proof.
  intros Hb Hno Hfr Ht Hne.
  exists ("The AI model did not return an image for the " ++ ctx
          ++ ". The model responded with text: " ++ quoted (JS.trim t)).
  split; [|split; [reflexivity|split]].
  - rewrite handleApiResponse_no_image by (try apply absent_is_falsy; assumption).
    rewrite (normal_finish _ Hfr), Ht; simpl.
    rewrite truthy_string_true by assumption. reflexivity.
  - apply Contains_middle.
  - do 3 apply Contains_append_r. apply Contains_middle.
Qed.

Lemma text_instead_of_image_witness :
  text (text_response "I cannot do that." (Some "STOP")) = Some "I cannot do that."
  /\ JS.trim "I cannot do that." = "I cannot do that."
  /\ exists m,
       handleApiResponse (text_response "I cannot do that." (Some "STOP")) "edit"
         = Throw (Failure NoImageReturned m)
       /\ m = "The AI model did not return an image for the edit. The model responded with text: "
              ++ quoted "I cannot do that."
       /\ Contains "edit" m
       /\ Contains "I cannot do that." m.
Proof.
  split; [reflexivity|]. split; [reflexivity|].
  apply (text_instead_of_image (text_response "I cannot do that." (Some "STOP"))
           "edit" "I cannot do that.");
    [reflexivity | intros ps E; injection E as <-; repeat constructor
     | now left | reflexivity | discriminate].
Defined.

(** C6: with no block reason, no inline-data part, a finish reason that is
    ['STOP'] or absent, and top-level text that is absent, empty or white
    space only, [handleApiResponse] fails with kind [NoImageReturned] and the
    generic guidance message, which depends on the context alone: no text of
    the response enters it. *)
Theorem no_text_generic_guidance
    (r : GenerateContentResponse) (ctx : string) :
  blockReason_of r = None ->
  NoInline r ->
  first_finishReason r = Some "STOP" \/ first_finishReason r = None ->
  text r = None \/ (exists t, text r = Some t /\ whitespace_only t = true) ->
  handleApiResponse r ctx =
    Throw (Failure NoImageReturned
             ("The AI model did not return an image for the " ++ ctx
              ++ ". This can happen due to safety filters or if the request is too complex. Please try rephrasing your prompt to be more direct.")).
Proof.
  intros Hb Hno Hfr Ht.
  rewrite handleApiResponse_no_image by (try apply absent_is_falsy; assumption).
  rewrite (normal_finish _ Hfr).
  destruct Ht as [-> | (t & -> & Hws)]; simpl.
  - reflexivity.
  - apply trim_empty_iff in Hws. rewrite Hws. reflexivity.
Qed.

Lemma no_text_generic_guidance_witness :
  whitespace_only (String "009" (String "010" "  ")) = true
  /\ handleApiResponse
       (text_response (String "009" (String "010" "  ")) (Some "STOP")) "adjustment"
     = Throw (Failure NoImageReturned
                "The AI model did not return an image for the adjustment. This can happen due to safety filters or if the request is too complex. Please try rephrasing your prompt to be more direct.").
Proof.
  split; [reflexivity|].
  apply (no_text_generic_guidance
           (text_response (String "009" (String "010" "  ")) (Some "STOP")) "adjustment");
    [reflexivity | intros ps E; injection E as <-; repeat constructor
     | now left | right; eexists; split; reflexivity].
Defined.

(** C7: with no block reason, when [candidates] is absent, or the first
    candidate has no [content], or that content has no [parts],
    [handleApiResponse] goes on to step 3: it fails with [AbnormalFinish]
    when the finish reason is present, not empty and not ['STOP'], and with
    [NoImageReturned] otherwise; no [TypeError] or other exception arises. *)
Theorem incomplete_response_falls_through
    (r : GenerateContentResponse) (ctx : string) :
  blockReason_of r = None ->
  candidates r = None
  \/ (exists c, first_candidate r = Some c /\ content c = None)
  \/ (exists c ct, first_candidate r = Some c /\ content c = Some ct /\ parts ct = None) ->
  (exists fr,
      first_finishReason r = Some fr /\ fr <> "" /\ fr <> "STOP"
      /\ handleApiResponse r ctx =
         Throw (Failure AbnormalFinish
                  ("Image generation for " ++ ctx ++ " stopped unexpectedly. Reason: "
                   ++ fr ++ ". This often relates to safety settings.")))
  \/ ((first_finishReason r = None \/ first_finishReason r = Some ""
       \/ first_finishReason r = Some "STOP")
      /\ exists m, handleApiResponse r ctx = Throw (Failure NoImageReturned m)).
Proof.
  intros Hb Hshape.
  assert (Hparts : first_parts r = None).
  { unfold first_parts.
    destruct Hshape as [Hc | [(c & Hc & Hct) | (c & ct & Hc & Hct & Hp)]].
    - unfold first_candidate. now rewrite Hc.
    - now rewrite Hc, Hct.
    - now rewrite Hc, Hct. }
  rewrite handleApiResponse_no_image
    by (try apply absent_is_falsy; try apply no_parts_NoInline; assumption).
  destruct (first_finishReason r) as [fr|].
  - destruct (string_dec fr "") as [-> | Hne].
    + right. split; [now right; left | eexists; reflexivity].
    + destruct (string_dec fr "STOP") as [-> | Hstop].
      * right. split; [now right; right | eexists; reflexivity].
      * left. exists fr. rewrite abnormal_finish by assumption. now repeat split.
  - right. split; [now left | eexists; reflexivity].
Qed.

Lemma incomplete_response_falls_through_witness :
  (exists c, first_candidate cut_short = Some c /\ content c = None)
  /\ ((exists fr,
          first_finishReason cut_short = Some fr /\ fr <> "" /\ fr <> "STOP"
          /\ handleApiResponse cut_short "upscale to 4K" =
             Throw (Failure AbnormalFinish
                      ("Image generation for " ++ "upscale to 4K"
                       ++ " stopped unexpectedly. Reason: "
                       ++ fr ++ ". This often relates to safety settings.")))
      \/ ((first_finishReason cut_short = None \/ first_finishReason cut_short = Some ""
           \/ first_finishReason cut_short = Some "STOP")
          /\ exists m, handleApiResponse cut_short "upscale to 4K"
                       = Throw (Failure NoImageReturned m))).
Proof.
  assert (S : exists c, first_candidate cut_short = Some c /\ content c = None).
  { eexists; split; reflexivity. }
  split; [exact S|].
  apply (incomplete_response_falls_through cut_short "upscale to 4K");
    [reflexivity | right; left; exact S].
Defined.

(** ** Detection responses *)

(** C8, on the code: when the top-level text is absent, [response.text.trim()]
    raises a [TypeError] inside the [try] block, the [catch] turns it into the
    invalid-format failure, and no empty list is returned.  (Text that is
    present and trims to nothing does return the empty list:
    [detectObjects_blank_text].) *)
Theorem detectObjects_absent_text :
  text bare = None
  /\ blockReason_of bare = None
  /\ detectObjects JSON.parse bare =
     Throw (Failure MalformedDetectionPayload
              "The AI model returned an invalid format for object detection. Please try again.")
  /\ detectObjects JSON.parse bare <> Return [].
Proof.
  repeat split; discriminate.
Qed.

(** C9: with no block reason and top-level text whose trimmed form is not
    empty, when that form does not parse as JSON, or parses to a value that
    is not an array, [detectObjects] fails with kind
    [MalformedDetectionPayload], and the message says that the model returned
    an invalid format. *)
Theorem malformed_detection_payload
    (parse : string -> option JSValue)
    (r : GenerateContentResponse) (t : string) :
  blockReason_of r = None ->
  text r = Some t ->
  JS.trim t <> "" ->
  parse (JS.trim t) = None
  \/ (exists v, parse (JS.trim t) = Some v /\ isArray v = false) ->
  exists m,
    detectObjects parse r = Throw (Failure MalformedDetectionPayload m)
    /\ m = "The AI model returned an invalid format for object detection. Please try again."
    /\ Contains "returned an invalid format" m.
Proof.
  intros Hb Ht Hne Hparse.
  eexists; split; [|split; [reflexivity|]].
  - rewrite detectObjects_unblocked by now apply absent_is_falsy.
    rewrite Ht, truthy_string_true by assumption.
    destruct Hparse as [-> | (v & -> & Hv)]; [reflexivity|].
    destruct v; first [discriminate Hv | reflexivity].
  - apply includes_sound. reflexivity.
Qed.

Lemma malformed_detection_payload_witness :
  JS.trim "not json" <> ""
  /\ JSON.parse (JS.trim "not json") = None
  /\ exists m,
       detectObjects JSON.parse (mkResponse None None (Some "not json"))
         = Throw (Failure MalformedDetectionPayload m)
       /\ m = "The AI model returned an invalid format for object detection. Please try again."
       /\ Contains "returned an invalid format" m.
Proof.
  split; [discriminate|]. split; [reflexivity|].
  apply (malformed_detection_payload JSON.parse
           (mkResponse None None (Some "not json")) "not json");
    [reflexivity | reflexivity | discriminate | left; reflexivity].
Defined.

(** C10: with no block reason, when the trimmed text parses to a JSON array,
    [detectObjects] returns the elements of that array, all of them and in
    order, whatever they are: nothing is checked about labels, boxes or
    coordinates.  ([JSON.parse] raises a [SyntaxError] on the empty
    string.) *)
Theorem detection_elements_unvalidated
    (parse : string -> option JSValue)
    (r : GenerateContentResponse) (t : string) (elements : list JSValue) :
  parse "" = None ->
  blockReason_of r = None ->
  text r = Some t ->
  parse (JS.trim t) = Some (JArray elements) ->
  detectObjects parse r = Return elements.
Proof.
  intros Hempty Hb Ht Hparse.
  rewrite detectObjects_unblocked by now apply absent_is_falsy.
  rewrite Ht.
  destruct (JS.truthy_string (JS.trim t)) eqn:E.
  - now rewrite Hparse.
  - apply truthy_string_false in E. rewrite E in Hparse. congruence.
Qed.

Lemma detection_elements_unvalidated_witness :
  JSON.parse "" = None
  /\ JSON.parse (JS.trim " [1,2,3] ") = Some (JArray [JNumber "1"; JNumber "2"; JNumber "3"])
  /\ detectObjects JSON.parse (mkResponse None None (Some " [1,2,3] "))
     = Return [JNumber "1"; JNumber "2"; JNumber "3"].
Proof.
  split; [reflexivity|]. split; [reflexivity|].
  apply (detection_elements_unvalidated JSON.parse
           (mkResponse None None (Some " [1,2,3] ")) " [1,2,3] ");
    reflexivity.
Defined.

(** ** The examples of the specification, run *)

Example empty_blockReason_not_blocked :
  handleApiResponse empty_blockReason "edit"
    = Return "data:image/png;base64,iVBORw0KGgo="
  /\ detectObjects JSON.parse empty_blockReason = Return [].
Proof. split; reflexivity. Qed.

Example padded_text_is_trimmed :
  handleApiResponse (text_response " hi" (Some "STOP")) "edit"
    = Throw (Failure NoImageReturned
               ("The AI model did not return an image for the edit. The model responded with text: "
                ++ quoted "hi")).
Proof. reflexivity. Qed.

Example detect_empty_array :
  detectObjects JSON.parse (mkResponse None None (Some "[]")) = Return [].
Proof. reflexivity. Qed.

Example detect_not_an_array :
  detectObjects JSON.parse (mkResponse None None (Some "{}"))
    = Throw (Failure MalformedDetectionPayload
               "The AI model returned an invalid format for object detection. Please try again.").
Proof. reflexivity. Qed.

Example detect_cat :
  detectObjects JSON.parse
    (mkResponse None None
       (Some ("[{" ++ quoted "label" ++ ":" ++ quoted "cat" ++ ","
              ++ quoted "box" ++ ":{" ++ quoted "x1" ++ ":0," ++ quoted "y1" ++ ":0,"
              ++ quoted "x2" ++ ":10," ++ quoted "y2" ++ ":10}}]")))
    = Return [JObject [("label", JString "cat");
                       ("box", JObject [("x1", JNumber "0"); ("y1", JNumber "0");
                                        ("x2", JNumber "10"); ("y2", JNumber "10")])]].
Proof. reflexivity. Qed.

(** [handleApiResponse] reads absent text through [?.] and reports the bare
    response as one without an image. *)
Example handleApiResponse_absent_text :
  handleApiResponse bare "edit"
    = Throw (Failure NoImageReturned
               "The AI model did not return an image for the edit. This can happen due to safety filters or if the request is too complex. Please try rephrasing your prompt to be more direct.").
Proof. reflexivity. Qed.

(** * Further properties of the service *)

(** ** Splitting and matching *)

Lemma occurs_append (c : ascii) (a b : string) :
  occurs c (a ++ b) = occurs c a || occurs c b.
Proof.
  induction a as [|d a IH]; simpl; [reflexivity|].
  now rewrite IH, orb_assoc.
Qed.

Lemma split_not_nil (sep : ascii) (s : string) : split sep s <> [].
Proof.
  destruct s as [|c s]; simpl; [discriminate|].
  destruct (Ascii.eqb c sep); [discriminate|].
  destruct (split sep s); discriminate.
Qed.

Lemma split_without (sep : ascii) (s : string) :
  occurs sep s = false -> split sep s = [s].
Proof.
  induction s as [|c s IH]; simpl; [reflexivity|].
  intros H. apply orb_false_iff in H as [Hc Hs].
  now rewrite Hc, (IH Hs).
Qed.

Lemma split_at_first (sep : ascii) (a b : string) :
  occurs sep a = false ->
  split sep (a ++ String sep b) = a :: split sep b.
Proof.
  induction a as [|c a IH]; simpl.
  - intros _. now rewrite Ascii.eqb_refl.
  - intros H. apply orb_false_iff in H as [Hc Ha].
    now rewrite Hc, (IH Ha).
Qed.

(** A string in which [sep] occurs has a first occurrence. *)
Lemma first_occurrence (sep : ascii) (s : string) :
  occurs sep s = true ->
  exists a b, s = a ++ String sep b /\ occurs sep a = false.
Proof.
  induction s as [|c s IH]; simpl; [discriminate|].
  destruct (Ascii.eqb c sep) eqn:Hc; simpl.
  - intros _. apply Ascii.eqb_eq in Hc; subst c. now exists "", s.
  - intros H. destruct (IH H) as (a & b & -> & Ha).
    exists (String c a), b. simpl. now rewrite Hc, Ha.
Qed.

(** A string is its piece before the first [sep], alone or followed by
    [sep] and the rest. *)
Lemma first_piece (sep : ascii) (s : string) :
  exists d tail,
    nth 0 (split sep s) "" = d
    /\ occurs sep d = false
    /\ s = d ++ tail
    /\ (tail = "" \/ exists t, tail = String sep t).
Proof.
  destruct (occurs sep s) eqn:H.
  - destruct (first_occurrence _ _ H) as (a & b & -> & Ha).
    exists a, (String sep b). rewrite split_at_first by assumption.
    repeat split; [assumption | right; now exists b].
  - exists s, "". rewrite split_without by assumption.
    repeat split; [assumption | now rewrite append_empty_r | now left].
Qed.

Lemma is_line_terminator_spec (c : ascii) :
  is_line_terminator c = Ascii.eqb c "010" || Ascii.eqb c "013".
Proof.
  destruct c as [[] [] [] [] [] [] [] []]; reflexivity.
Qed.

Lemma lazy_until_semicolon_sound (s m : string) :
  lazy_until_semicolon s = Some m ->
  (exists post, s = m ++ ";" ++ post)
  /\ occurs ";" m = false /\ occurs "010" m = false /\ occurs "013" m = false.
Proof.
  revert m; induction s as [|c s IH]; simpl; intros m H; [discriminate|].
  destruct (Ascii.eqb c ";") eqn:Hc.
  - injection H as <-. apply Ascii.eqb_eq in Hc; subst c.
    repeat split. now exists s.
  - destruct (is_line_terminator c) eqn:Hlt; [discriminate|].
    destruct (lazy_until_semicolon s) as [m'|]; [|discriminate].
    injection H as <-.
    destruct (IH m' eq_refl) as ((post & ->) & H1 & H2 & H3).
    rewrite is_line_terminator_spec in Hlt.
    apply orb_false_iff in Hlt as [Hlf Hcr].
    simpl. rewrite Hc, Hlf, Hcr, H1, H2, H3.
    repeat split. now exists post.
Qed.

Lemma lazy_until_semicolon_complete (m post : string) :
  occurs ";" m = false -> occurs "010" m = false -> occurs "013" m = false ->
  lazy_until_semicolon (m ++ ";" ++ post) = Some m.
Proof.
  induction m as [|c m IH]; simpl; [reflexivity|].
  intros H1 H2 H3.
  apply orb_false_iff in H1 as [Hc H1].
  apply orb_false_iff in H2 as [Hlf H2].
  apply orb_false_iff in H3 as [Hcr H3].
  rewrite Hc, is_line_terminator_spec, Hlf, Hcr; simpl.
  pose proof (IH H1 H2 H3) as E. simpl in E. now rewrite E.
Qed.

Lemma lazy_until_semicolon_none (s : string) :
  occurs ";" s = false -> lazy_until_semicolon s = None.
Proof.
  induction s as [|c s IH]; simpl; [reflexivity|].
  intros H. apply orb_false_iff in H as [Hc Hs].
  rewrite Hc, (IH Hs). now destruct (is_line_terminator c).
Qed.

Lemma match_mime_sound (s m : string) :
  match_mime s = Some m ->
  (exists pre post, s = pre ++ ":" ++ m ++ ";" ++ post)
  /\ occurs ";" m = false /\ occurs "010" m = false /\ occurs "013" m = false.
Proof.
  induction s as [|c s IH]; simpl; intros H; [discriminate|].
  assert (Hrec : match_mime s = Some m ->
                 (exists pre post, String c s = pre ++ ":" ++ m ++ ";" ++ post)
                 /\ occurs ";" m = false /\ occurs "010" m = false
                 /\ occurs "013" m = false).
  { intros H'. destruct (IH H') as ((pre & post & ->) & Hm).
    split; [|exact Hm]. now exists (String c pre), post. }
  destruct (Ascii.eqb c ":") eqn:Hc; [|now apply Hrec].
  destruct (lazy_until_semicolon s) as [m'|] eqn:Hl; [|now apply Hrec].
  injection H as <-. apply Ascii.eqb_eq in Hc; subst c.
  destruct (lazy_until_semicolon_sound _ _ Hl) as ((post & ->) & Hm).
  split; [|exact Hm]. now exists "", post.
Qed.

Lemma match_mime_first (pre m post : string) :
  occurs ":" pre = false ->
  occurs ";" m = false -> occurs "010" m = false -> occurs "013" m = false ->
  match_mime (pre ++ ":" ++ m ++ ";" ++ post) = Some m.
Proof.
  intros Hpre H1 H2 H3.
  induction pre as [|c pre IH].
  - change (match_mime (String ":" (m ++ ";" ++ post)) = Some m).
    cbn [match_mime]. rewrite Ascii.eqb_refl.
    now rewrite (lazy_until_semicolon_complete m post H1 H2 H3).
  - change (match_mime (String c (pre ++ ":" ++ m ++ ";" ++ post)) = Some m).
    cbn [match_mime]. simpl in Hpre. apply orb_false_iff in Hpre as [Hc Hpre].
    rewrite Hc. now apply IH.
Qed.

Lemma match_mime_no_semicolon (s : string) :
  occurs ";" s = false -> match_mime s = None.
Proof.
  induction s as [|c s IH]; simpl; [reflexivity|].
  intros H. apply orb_false_iff in H as [_ Hs].
  rewrite (lazy_until_semicolon_none s Hs), (IH Hs).
  now destruct (Ascii.eqb c ":").
Qed.

Lemma match_mime_no_colon (s : string) :
  occurs ":" s = false -> match_mime s = None.
Proof.
  induction s as [|c s IH]; simpl; [reflexivity|].
  intros H. apply orb_false_iff in H as [Hc Hs]. now rewrite Hc, (IH Hs).
Qed.

Lemma match_mime_empty_capture (pre post : string) :
  occurs ":" pre = false ->
  match_mime (pre ++ ":;" ++ post) = Some "".
Proof.
  intros H. now apply (match_mime_first pre "" post).
Qed.

(** What [fileToPart] does with a data URL that has a comma. *)
Lemma fileToPart_header (header rest : string) :
  occurs "," header = false ->
  fileToPart (header ++ "," ++ rest) =
  match match_mime header with
  | Some m =>
      if JS.truthy_string m
      then Ok (mkPart (Some (mkBlob m (nth 0 (split "," rest) ""))) None)
      else Error "Could not parse MIME type from data URL"
  | None => Error "Could not parse MIME type from data URL"
  end.
Proof.
  intros H. unfold fileToPart.
  change (header ++ "," ++ rest) with (header ++ String "," rest).
  rewrite split_at_first by assumption.
  pose proof (split_not_nil "," rest) as Hne.
  destruct (split "," rest) as [|d ds]; [congruence|]. reflexivity.
Qed.

(** ** Uploaded files *)

(** X1: [fileToPart] fails with "Invalid data URL" exactly when the data URL
    has no comma. *)
Theorem fileToPart_invalid_iff (u : string) :
  fileToPart u = Error "Invalid data URL" <-> occurs "," u = false.
Proof.
  split.
  - intros H. destruct (occurs "," u) eqn:Hu; [|reflexivity].
    destruct (first_occurrence _ _ Hu) as (a & b & -> & Ha).
    change (a ++ String "," b) with (a ++ "," ++ b) in H.
    rewrite fileToPart_header in H by assumption.
    destruct (match_mime a) as [m|]; [|discriminate].
    destruct (JS.truthy_string m); discriminate.
  - intros H. unfold fileToPart. now rewrite split_without.
Qed.

(** X2: a data URL whose text before the first comma has no colon, or no
    semicolon, or has [:;] at its first colon, is rejected with "Could not
    parse MIME type from data URL"; so is every URL of the form
    [data:text/plain,...]. *)
Theorem fileToPart_no_mime (header rest : string) :
  occurs "," header = false ->
  occurs ":" header = false
  \/ occurs ";" header = false
  \/ (exists pre post, header = pre ++ ":;" ++ post /\ occurs ":" pre = false) ->
  fileToPart (header ++ "," ++ rest) = Error "Could not parse MIME type from data URL".
Proof.
  intros Hh Hcase. rewrite fileToPart_header by assumption.
  destruct Hcase as [H | [H | (pre & post & -> & H)]].
  - now rewrite match_mime_no_colon.
  - now rewrite match_mime_no_semicolon.
  - now rewrite match_mime_empty_capture.
Qed.

Lemma fileToPart_no_mime_witness :
  occurs "," "data:text/plain" = false
  /\ occurs ";" "data:text/plain" = false
  /\ fileToPart ("data:text/plain" ++ "," ++ "hello")
     = Error "Could not parse MIME type from data URL".
Proof.
  split; [reflexivity|]. split; [reflexivity|].
  apply (fileToPart_no_mime "data:text/plain" "hello");
    [reflexivity | right; left; reflexivity].
Defined.

(** X3: for a MIME type that is not empty and has no comma, semicolon or
    line terminator, and parameters and data without a comma, [fileToPart]
    reads [data:<mime>;<parameters>,<data>] as that MIME type and that data;
    the parameters ([base64], a charset) are dropped. *)
Theorem fileToPart_reads_data_url (m params d : string) :
  plain_mime m ->
  occurs "," params = false ->
  occurs "," d = false ->
  fileToPart ("data:" ++ m ++ ";" ++ params ++ "," ++ d)
  = Ok (mkPart (Some (mkBlob m d)) None).
Proof.
  intros (Hne & Hcomma & Hsemi & Hlf & Hcr) Hp Hd.
  assert (E : "data:" ++ m ++ ";" ++ params ++ "," ++ d
              = ("data:" ++ m ++ ";" ++ params) ++ "," ++ d).
  { simpl. do 5 f_equal. now rewrite append_assoc. }
  rewrite E, fileToPart_header.
  - change ("data:" ++ m ++ ";" ++ params) with ("data" ++ ":" ++ m ++ ";" ++ params).
    rewrite match_mime_first by (reflexivity || assumption).
    rewrite truthy_string_true by assumption.
    now rewrite split_without.
  - change ("data:" ++ m ++ ";" ++ params) with ("data:" ++ (m ++ (";" ++ params))).
    rewrite !occurs_append, Hcomma, Hp. reflexivity.
Qed.

Lemma fileToPart_reads_data_url_witness :
  plain_mime "image/svg+xml"
  /\ fileToPart ("data:" ++ "image/svg+xml" ++ ";" ++ "charset=utf-8;base64" ++ "," ++ "PHN2Zz4=")
     = Ok (mkPart (Some (mkBlob "image/svg+xml" "PHN2Zz4=")) None).
Proof.
  assert (P : plain_mime "image/svg+xml").
  { repeat split. discriminate. }
  split; [exact P|].
  apply (fileToPart_reads_data_url "image/svg+xml" "charset=utf-8;base64" "PHN2Zz4=");
    [exact P | reflexivity | reflexivity].
Defined.

(** X4: whenever [fileToPart] succeeds, the part carries inline data whose
    MIME type is not empty and has no comma, semicolon or line terminator
    and whose data has no comma; the URL is a comma-free header in which
    [:<mime>;] occurs, a comma, the data, and then nothing or a comma and
    more. *)
Theorem fileToPart_sound (u : string) (p : Part) :
  fileToPart u = Ok p ->
  exists m d header tail,
    p = mkPart (Some (mkBlob m d)) None
    /\ plain_mime m
    /\ occurs "," d = false
    /\ u = header ++ "," ++ d ++ tail
    /\ occurs "," header = false
    /\ Contains (":" ++ m ++ ";") header
    /\ (tail = "" \/ exists t, tail = "," ++ t).
Proof.
  intros H.
  destruct (occurs "," u) eqn:Hu.
  2:{ apply fileToPart_invalid_iff in Hu. congruence. }
  destruct (first_occurrence _ _ Hu) as (a & b & -> & Ha).
  change (a ++ String "," b) with (a ++ "," ++ b) in *.
  rewrite fileToPart_header in H by assumption.
  destruct (match_mime a) as [m|] eqn:Hm; [|discriminate].
  destruct (JS.truthy_string m) eqn:Ht; [|discriminate].
  injection H as <-.
  destruct (match_mime_sound _ _ Hm) as ((pre & post & Ea) & Hsemi & Hlf & Hcr).
  destruct (first_piece "," b) as (d & tail & Ed & Hd & Eb & Htail).
  exists m, d, a, tail. rewrite Ed.
  split; [reflexivity|]. split; [|split; [exact Hd|split; [|split; [exact Ha|split]]]].
  - repeat split; try assumption.
    + intros ->. discriminate.
    + rewrite Ea in Ha. rewrite !occurs_append in Ha.
      repeat (apply orb_false_iff in Ha as [? Ha]). 
      match goal with Hx : occurs "," m = false |- _ => exact Hx end.
  - now rewrite Eb.
  - exists pre, post. rewrite Ea. now rewrite !append_assoc.
  - exact Htail.
Qed.

Lemma fileToPart_sound_witness :
  exists m d header tail,
    mkPart (Some (mkBlob "image/png" "iVBORw0KGgo=")) None = mkPart (Some (mkBlob m d)) None
    /\ plain_mime m
    /\ occurs "," d = false
    /\ "data:image/png;base64,iVBORw0KGgo=,extra" = header ++ "," ++ d ++ tail
    /\ occurs "," header = false
    /\ Contains (":" ++ m ++ ";") header
    /\ (tail = "" \/ exists t, tail = "," ++ t).
Proof.
  apply (fileToPart_sound "data:image/png;base64,iVBORw0KGgo=,extra").
  reflexivity.
Defined.

(** X5: everything from the second comma of the data URL on is ignored. *)
Theorem fileToPart_ignores_after_second_comma (header d rest : string) :
  occurs "," header = false ->
  occurs "," d = false ->
  fileToPart (header ++ "," ++ d ++ "," ++ rest) = fileToPart (header ++ "," ++ d).
Proof.
  intros Hh Hd. rewrite !fileToPart_header by assumption.
  change (d ++ "," ++ rest) with (d ++ String "," rest).
  rewrite split_at_first by assumption.
  rewrite (split_without "," d) by assumption. reflexivity.
Qed.

Lemma fileToPart_ignores_after_second_comma_witness :
  fileToPart ("data:image/png;base64" ++ "," ++ "AAAA" ++ "," ++ "BBBB,CCCC")
  = fileToPart ("data:image/png;base64" ++ "," ++ "AAAA").
Proof.
  apply (fileToPart_ignores_after_second_comma "data:image/png;base64" "AAAA" "BBBB,CCCC");
    reflexivity.
Defined.

(** X6: an image that [handleApiResponse] returns can be uploaded again:
    when the MIME type of the first inline part is not empty and has no
    comma, semicolon or line terminator and its data has no comma,
    [fileToPart] reads the returned data URL back as that very part. *)
Theorem returned_image_uploads_back
    (r : GenerateContentResponse) (ctx : string) (ps : list Part) (b : Blob) :
  blockReason_of r = None ->
  first_parts r = Some ps ->
  FirstInline ps b ->
  plain_mime (mimeType b) ->
  occurs "," (data b) = false ->
  exists u,
    handleApiResponse r ctx = Return u
    /\ fileToPart u = Ok (mkPart (Some b) None).
Proof.
  intros Hb Hps Hfirst Hm Hd.
  exists ("data:" ++ mimeType b ++ ";base64," ++ data b). split.
  - apply handleApiResponse_first_image with (ps := ps);
      [now apply absent_is_falsy | assumption | assumption].
  - change ("data:" ++ mimeType b ++ ";base64," ++ data b)
      with ("data:" ++ mimeType b ++ ";" ++ "base64" ++ "," ++ data b).
    rewrite fileToPart_reads_data_url by (assumption || reflexivity).
    now destruct b.
Qed.

Lemma returned_image_uploads_back_witness :
  plain_mime (mimeType png)
  /\ exists u,
       handleApiResponse (mkResponse None (two_images (Some "STOP")) None) "filter" = Return u
       /\ fileToPart u = Ok (mkPart (Some png) None).
Proof.
  assert (P : plain_mime (mimeType png)).
  { repeat split. discriminate. }
  split; [exact P|].
  apply (returned_image_uploads_back
           (mkResponse None (two_images (Some "STOP")) None) "filter"
           [mkPart None (Some "Here you are"); mkPart (Some png) None; mkPart (Some jpeg) None]
           png);
    [reflexivity | reflexivity | | exact P | reflexivity].
  exists [mkPart None (Some "Here you are")], (mkPart (Some png) None),
         [mkPart (Some jpeg) None].
  split; [reflexivity|]. split; [|reflexivity].
  constructor; [reflexivity | constructor].
Defined.

(** ** What the two readers can end with *)

Lemma check_blocked_cases (r : GenerateContentResponse) :
  (JS.truthy (blockReason_of r) = false /\ check_blocked r = Return tt)
  \/ (JS.truthy (blockReason_of r) = true
      /\ exists m, check_blocked r = Throw (Failure RequestBlocked m)).
Proof.
  unfold check_blocked.
  change (promptFeedback r ?. blockReason) with (blockReason_of r).
  destruct (JS.truthy (blockReason_of r)).
  - right. split; [reflexivity | eexists; reflexivity].
  - left. split; reflexivity.
Qed.

Lemma inline_or_not (ps : list Part) :
  Exists (fun p => inlineData p <> None) ps
  \/ Forall (fun p => inlineData p = None) ps.
Proof.
  induction ps as [|p ps [IH|IH]].
  - right. constructor.
  - left. now apply Exists_cons_tl.
  - destruct (inlineData p) eqn:Hp.
    + left. apply Exists_cons_hd. congruence.
    + right. now constructor.
Qed.

(** X7: [handleApiResponse] returns exactly when the block reason is absent
    or empty and some part of the first candidate carries inline data; what
    it returns is then the data URL of the first such part, whatever the
    context. *)
Theorem handleApiResponse_returns_iff
    (r : GenerateContentResponse) (ctx u : string) :
  handleApiResponse r ctx = Return u
  <-> JS.truthy (blockReason_of r) = false
      /\ exists ps b,
           first_parts r = Some ps /\ FirstInline ps b
           /\ u = "data:" ++ mimeType b ++ ";base64," ++ data b.
Proof.
  split.
  - intros H.
    destruct (check_blocked_cases r) as [[Hb _] | [_ [m Hm]]].
    2:{ unfold handleApiResponse in H. rewrite Hm in H. discriminate. }
    split; [exact Hb|].
    assert (Hthrows : NoInline r -> False).
    { intros Hno. rewrite handleApiResponse_no_image in H by assumption.
      destruct (JS.truthy (first_finishReason r)
                && JS.strict_neq (first_finishReason r) "STOP"); discriminate. }
    destruct (first_parts r) as [ps|] eqn:Hps.
    2:{ exfalso. apply Hthrows. intros ps E. congruence. }
    destruct (inline_or_not ps) as [Hex | Hall].
    2:{ exfalso. apply Hthrows. intros ps' E. congruence. }
    destruct (Exists_FirstInline ps Hex) as [b Hfirst].
    exists ps, b. repeat split; [assumption|].
    rewrite (handleApiResponse_first_image r ctx ps b Hb Hps Hfirst) in H.
    congruence.
  - intros (Hb & ps & b & Hps & Hfirst & ->).
    now apply handleApiResponse_first_image with (ps := ps).
Qed.

(** X8: [handleApiResponse] reads nothing but the block reason and its
    message, the parts and the finish reason of the first candidate, and the
    top-level text: two responses that agree on these give the same result,
    whatever their other candidates hold. *)
Theorem handleApiResponse_reads_only
    (r r' : GenerateContentResponse) (ctx : string) :
  blockReason_of r = blockReason_of r' ->
  blockReasonMessage_of r = blockReasonMessage_of r' ->
  first_parts r = first_parts r' ->
  first_finishReason r = first_finishReason r' ->
  text r = text r' ->
  handleApiResponse r ctx = handleApiResponse r' ctx.
Proof.
  intros Hb Hm Hp Hf Ht. unfold handleApiResponse, check_blocked.
  rewrite !chain_parts, !chain_finishReason.
  change (promptFeedback r ?. blockReason) with (blockReason_of r).
  change (promptFeedback r' ?. blockReason) with (blockReason_of r').
  change (promptFeedback r ?. blockReasonMessage) with (blockReasonMessage_of r).
  change (promptFeedback r' ?. blockReasonMessage) with (blockReasonMessage_of r').
  now rewrite Hb, Hm, Hp, Hf, Ht.
Qed.

Lemma handleApiResponse_reads_only_witness :
  handleApiResponse
    (mkResponse None
       (Some [mkCandidate (Some (mkContent (Some [mkPart None (Some "No.")]))) (Some "STOP");
              mkCandidate (Some (mkContent (Some [mkPart (Some png) None]))) (Some "STOP")])
       (Some "No."))
    "edit"
  = handleApiResponse (text_response "No." (Some "STOP")) "edit".
Proof.
  apply (handleApiResponse_reads_only
           (mkResponse None
              (Some [mkCandidate (Some (mkContent (Some [mkPart None (Some "No.")]))) (Some "STOP");
                     mkCandidate (Some (mkContent (Some [mkPart (Some png) None]))) (Some "STOP")])
              (Some "No."))
           (text_response "No." (Some "STOP")) "edit");
    reflexivity.
Defined.

Lemma no_image_failure (r : GenerateContentResponse) (ctx : string) :
  JS.truthy (blockReason_of r) = false ->
  NoInline r ->
  exists k m,
    handleApiResponse r ctx = Throw (Failure k m)
    /\ (k = AbnormalFinish \/ k = NoImageReturned)
    /\ Contains ctx m.
Proof.
  intros Hb Hno. rewrite handleApiResponse_no_image by assumption.
  destruct (JS.truthy (first_finishReason r)
            && JS.strict_neq (first_finishReason r) "STOP");
    eexists _, _; (split; [reflexivity|]);
    (split; [tauto | apply Contains_middle]).
Qed.

(** X9: [handleApiResponse] throws nothing but an [Error] of kind
    [RequestBlocked], [AbnormalFinish] or [NoImageReturned], and the message
    of the last two contains the context. *)
Theorem handleApiResponse_failures
    (r : GenerateContentResponse) (ctx : string) (e : exn) :
  handleApiResponse r ctx = Throw e ->
  exists k m,
    e = Failure k m
    /\ (k = RequestBlocked
        \/ ((k = AbnormalFinish \/ k = NoImageReturned) /\ Contains ctx m)).
Proof.
  intros H.
  destruct (check_blocked_cases r) as [[Hb _] | [_ [m Hm]]].
  2:{ unfold handleApiResponse in H. rewrite Hm in H. injection H as <-.
      exists RequestBlocked, m. split; [reflexivity | now left]. }
  assert (Hno : NoInline r -> exists k m,
             e = Failure k m
             /\ (k = RequestBlocked
                 \/ ((k = AbnormalFinish \/ k = NoImageReturned) /\ Contains ctx m))).
  { intros Hno. destruct (no_image_failure r ctx Hb Hno) as (k & m & E & Hk & Hc).
    exists k, m. split; [congruence | right; now split]. }
  destruct (first_parts r) as [ps|] eqn:Hps.
  - destruct (inline_or_not ps) as [Hex | Hall].
    + destruct (Exists_FirstInline ps Hex) as [b Hfirst].
      rewrite (handleApiResponse_first_image r ctx ps b Hb Hps Hfirst) in H.
      discriminate.
    + apply Hno. intros ps' E. congruence.
  - apply Hno. intros ps' E. congruence.
Qed.

Lemma handleApiResponse_failures_witness :
  exists k m,
    Failure AbnormalFinish "Image generation for edit stopped unexpectedly. Reason: SAFETY. This often relates to safety settings."
    = Failure k m
    /\ (k = RequestBlocked
        \/ ((k = AbnormalFinish \/ k = NoImageReturned) /\ Contains "edit" m)).
Proof.
  apply (handleApiResponse_failures cut_short "edit"). reflexivity.
Defined.

(** X10: [detectObjects] reads nothing but the block reason, its message and
    the top-level text: the candidates, their parts and their finish reasons
    never change what it does with a response. *)
Theorem detectObjects_reads_only
    (parse : string -> option JSValue) (r r' : GenerateContentResponse) :
  blockReason_of r = blockReason_of r' ->
  blockReasonMessage_of r = blockReasonMessage_of r' ->
  text r = text r' ->
  detectObjects parse r = detectObjects parse r'.
Proof.
  intros Hb Hm Ht. unfold detectObjects, check_blocked.
  change (promptFeedback r ?. blockReason) with (blockReason_of r).
  change (promptFeedback r' ?. blockReason) with (blockReason_of r').
  change (promptFeedback r ?. blockReasonMessage) with (blockReasonMessage_of r).
  change (promptFeedback r' ?. blockReasonMessage) with (blockReasonMessage_of r').
  now rewrite Hb, Hm, Ht.
Qed.

Lemma detectObjects_reads_only_witness :
  detectObjects JSON.parse (mkResponse None (Some [mkCandidate None (Some "SAFETY")]) (Some " "))
  = detectObjects JSON.parse (mkResponse None None (Some " ")).
Proof.
  apply (detectObjects_reads_only JSON.parse
           (mkResponse None (Some [mkCandidate None (Some "SAFETY")]) (Some " "))
           (mkResponse None None (Some " ")));
    reflexivity.
Defined.

(** X11: whatever goes wrong inside [detectObjects], the caller sees either
    the blocked-request failure or the one invalid-format failure: a
    [TypeError], a [SyntaxError] or the inner "not an array" error never
    escapes, and the message says nothing about the cause. *)
Theorem detectObjects_failures
    (parse : string -> option JSValue) (r : GenerateContentResponse) (e : exn) :
  detectObjects parse r = Throw e ->
  (exists m, e = Failure RequestBlocked m)
  \/ e = Failure MalformedDetectionPayload
           "The AI model returned an invalid format for object detection. Please try again.".
Proof.
  intros H.
  destruct (check_blocked_cases r) as [[Hb _] | [_ [m Hm]]].
  - right. rewrite detectObjects_unblocked in H by assumption.
    destruct (text r) as [t|]; [|congruence].
    destruct (JS.truthy_string (JS.trim t)); [|discriminate].
    destruct (parse (JS.trim t)) as [[]|]; congruence.
  - left. unfold detectObjects in H. rewrite Hm in H. injection H as <-.
    now exists m.
Qed.

Lemma detectObjects_failures_witness :
  (exists m,
      Failure MalformedDetectionPayload
        "The AI model returned an invalid format for object detection. Please try again."
      = Failure RequestBlocked m)
  \/ Failure MalformedDetectionPayload
       "The AI model returned an invalid format for object detection. Please try again."
     = Failure MalformedDetectionPayload
         "The AI model returned an invalid format for object detection. Please try again.".
Proof.
  apply (detectObjects_failures JSON.parse (mkResponse None None (Some "{}"))).
  reflexivity.
Defined.

(** X12: [detectObjects] returns a list exactly when the block reason is
    absent or empty, the text is present, and the trimmed text is either
    empty (the list is then empty) or parses to an array (the list is then
    its elements). *)
Theorem detectObjects_returns_iff
    (parse : string -> option JSValue)
    (r : GenerateContentResponse) (l : list JSValue) :
  detectObjects parse r = Return l
  <-> JS.truthy (blockReason_of r) = false
      /\ exists t,
           text r = Some t
           /\ ((JS.trim t = "" /\ l = [])
               \/ (JS.trim t <> "" /\ parse (JS.trim t) = Some (JArray l))).
Proof.
  split.
  - intros H.
    destruct (check_blocked_cases r) as [[Hb _] | [_ [m Hm]]].
    2:{ unfold detectObjects in H. rewrite Hm in H. discriminate. }
    split; [exact Hb|].
    rewrite detectObjects_unblocked in H by assumption.
    destruct (text r) as [t|]; [|discriminate].
    exists t; split; [reflexivity|].
    destruct (JS.truthy_string (JS.trim t)) eqn:Ht.
    + right. split; [intros E; rewrite E in Ht; discriminate|].
      destruct (parse (JS.trim t)) as [[]|]; congruence.
    + left. split; [now apply truthy_string_false | congruence].
  - intros (Hb & t & Ht & Hcase).
    rewrite detectObjects_unblocked, Ht by assumption.
    destruct Hcase as [[E ->] | [Hne Hp]].
    + now rewrite E.
    + now rewrite truthy_string_true, Hp.
Qed.

(** ** The operations as a whole *)

Ltac open_operation :=
  unfold Service.generateEditedImage, Service.generateFilteredImage,
         Service.generateAdjustedImage, Service.compositeWithBackground,
         Service.detectObjects, Service.upscaleImage, with_part.

Section ServiceFacts.

Variable E : Type.
Variable Number : Type.
Variable Number_toString : Number -> string.
Variable generateContent : GenerateContentParameters -> E + GenerateContentResponse.
Variable JSON_parse : string -> option JSValue.

#[warning="-notation-for-abbreviation"] Local Notation edit := (Service.generateEditedImage E Number Number_toString generateContent).
#[warning="-notation-for-abbreviation"] Local Notation filter := (Service.generateFilteredImage E generateContent).
#[warning="-notation-for-abbreviation"] Local Notation adjust := (Service.generateAdjustedImage E generateContent).
#[warning="-notation-for-abbreviation"] Local Notation composite := (Service.compositeWithBackground E generateContent).
#[warning="-notation-for-abbreviation"] Local Notation detect := (Service.detectObjects E generateContent JSON_parse).
#[warning="-notation-for-abbreviation"] Local Notation upscale := (Service.upscaleImage E generateContent).

(** X13: a file that [fileToPart] rejects makes every operation fail with
    that error, whatever the model service would have answered; in a
    composition the foreground is read first and the background second. *)
Theorem invalid_file_fails_first (file : File) (m : string) :
  fileToPart file = Error m ->
  (forall userPrompt hotspot, edit file userPrompt hotspot = Raise (FileError m))
  /\ (forall filterPrompt, filter file filterPrompt = Raise (FileError m))
  /\ (forall adjustmentPrompt, adjust file adjustmentPrompt = Raise (FileError m))
  /\ (forall background, composite file background = Raise (FileError m))
  /\ (forall foreground part,
         fileToPart foreground = Ok part ->
         composite foreground file = Raise (FileError m))
  /\ detect file = Raise (FileError m)
  /\ (forall resolution, upscale file resolution = Raise (FileError m)).
Proof.
  intros H.
  repeat split; intros; open_operation;
    try match goal with Hf : fileToPart _ = Ok _ |- _ => rewrite Hf end;
    now rewrite H.
Qed.

(** X14: when the service answers with a response whose block reason is
    present and not empty, each of the six operations fails with the
    blocked-request error and the same message. *)
Theorem blocked_fails_every_operation
    (r : GenerateContentResponse) (br : string) (file background : File) :
  (forall request, generateContent request = inr r) ->
  blockReason_of r = Some br ->
  br <> "" ->
  (exists part, fileToPart file = Ok part) ->
  (exists part, fileToPart background = Ok part) ->
  (forall userPrompt hotspot,
      edit file userPrompt hotspot =
      Raise (ResponseError (Failure RequestBlocked
               ("Request was blocked. Reason: " ++ br ++ ". "
                ++ JS.or_empty (blockReasonMessage_of r)))))
  /\ (forall filterPrompt,
         filter file filterPrompt =
         Raise (ResponseError (Failure RequestBlocked
                  ("Request was blocked. Reason: " ++ br ++ ". "
                   ++ JS.or_empty (blockReasonMessage_of r)))))
  /\ (forall adjustmentPrompt,
         adjust file adjustmentPrompt =
         Raise (ResponseError (Failure RequestBlocked
                  ("Request was blocked. Reason: " ++ br ++ ". "
                   ++ JS.or_empty (blockReasonMessage_of r)))))
  /\ composite file background =
     Raise (ResponseError (Failure RequestBlocked
              ("Request was blocked. Reason: " ++ br ++ ". "
               ++ JS.or_empty (blockReasonMessage_of r))))
  /\ detect file =
     Raise (ResponseError (Failure RequestBlocked
              ("Request was blocked. Reason: " ++ br ++ ". "
               ++ JS.or_empty (blockReasonMessage_of r))))
  /\ (forall resolution,
         upscale file resolution =
         Raise (ResponseError (Failure RequestBlocked
                  ("Request was blocked. Reason: " ++ br ++ ". "
                   ++ JS.or_empty (blockReasonMessage_of r))))).
Proof.
  intros Hservice Hbr Hne [part Hfile] [part' Hbackground].
  repeat split; intros; open_operation;
    rewrite ?Hfile, ?Hbackground; cbv beta iota zeta;
    rewrite Hservice; unfold with_response, handleApiResponse, detectObjects;
    rewrite (check_blocked_throw r br Hbr Hne); reflexivity.
Qed.

(** X15: a rejection of the model call leaves every operation as it is:
    nothing is retried or wrapped, and the [catch] of [detectObjects] does
    not turn it into the invalid-format failure. *)
Theorem rejection_passes_through (e : E) (file background : File) :
  (forall request, generateContent request = inl e) ->
  (exists part, fileToPart file = Ok part) ->
  (exists part, fileToPart background = Ok part) ->
  (forall userPrompt hotspot, edit file userPrompt hotspot = Raise (Rejected e))
  /\ (forall filterPrompt, filter file filterPrompt = Raise (Rejected e))
  /\ (forall adjustmentPrompt, adjust file adjustmentPrompt = Raise (Rejected e))
  /\ composite file background = Raise (Rejected e)
  /\ detect file = Raise (Rejected e)
  /\ (forall resolution, upscale file resolution = Raise (Rejected e)).
Proof.
  intros Hservice [part Hfile] [part' Hbackground].
  repeat split; intros; open_operation;
    rewrite ?Hfile, ?Hbackground; cbv beta iota zeta;
    rewrite Hservice; reflexivity.
Qed.

(** X16: when the service answers every request with an unblocked response
    whose first candidate starts with the first part it was sent, each image
    operation returns the uploaded data URL itself, provided that has the
    form [data:<mime>;base64,<data>] with a MIME type that is not empty and
    has no comma, semicolon or line terminator and data without a comma. *)
Theorem echoed_upload_comes_back (m d : string) (background : File) :
  (forall request p others,
      contents request = p :: others ->
      exists r rest,
        generateContent request = inr r
        /\ blockReason_of r = None
        /\ first_parts r = Some (p :: rest)) ->
  plain_mime m ->
  occurs "," d = false ->
  (exists part, fileToPart background = Ok part) ->
  (forall userPrompt hotspot,
      edit ("data:" ++ m ++ ";base64," ++ d) userPrompt hotspot
      = Resolved ("data:" ++ m ++ ";base64," ++ d))
  /\ (forall filterPrompt,
         filter ("data:" ++ m ++ ";base64," ++ d) filterPrompt
         = Resolved ("data:" ++ m ++ ";base64," ++ d))
  /\ (forall adjustmentPrompt,
         adjust ("data:" ++ m ++ ";base64," ++ d) adjustmentPrompt
         = Resolved ("data:" ++ m ++ ";base64," ++ d))
  /\ composite ("data:" ++ m ++ ";base64," ++ d) background
     = Resolved ("data:" ++ m ++ ";base64," ++ d)
  /\ (forall resolution,
         upscale ("data:" ++ m ++ ";base64," ++ d) resolution
         = Resolved ("data:" ++ m ++ ";base64," ++ d)).
Proof.
  intros Hservice Hm Hd [part' Hbackground].
  assert (Hfile : fileToPart ("data:" ++ m ++ ";base64," ++ d)
                  = Ok (mkPart (Some (mkBlob m d)) None)).
  { change ("data:" ++ m ++ ";base64," ++ d)
      with ("data:" ++ m ++ ";" ++ "base64" ++ "," ++ d).
    now apply fileToPart_reads_data_url. }
  assert (Hecho : forall request others ctx,
             contents request = mkPart (Some (mkBlob m d)) None :: others ->
             with_response (generateContent request)
               (fun response => @of_completion E string (handleApiResponse response ctx))
             = Resolved ("data:" ++ m ++ ";base64," ++ d)).
  { intros request others ctx Hc.
    destruct (Hservice request _ _ Hc) as (r & rest & -> & Hb & Hps).
    unfold with_response.
    rewrite (handleApiResponse_first_image r ctx _ (mkBlob m d)
               (absent_is_falsy _ Hb) Hps).
    - reflexivity.
    - exists [], (mkPart (Some (mkBlob m d)) None), rest.
      repeat split. constructor. }
  repeat split; intros; open_operation;
    rewrite ?Hfile, ?Hbackground; cbv beta iota zeta;
    eapply Hecho; reflexivity.
Qed.

End ServiceFacts.

Lemma invalid_file_fails_first_witness :
  fileToPart "C:/photos/cat.png" = Error "Invalid data URL"
  /\ Service.generateFilteredImage unit (fun _ => inl tt) "C:/photos/cat.png" "sepia"
     = Raise (FileError "Invalid data URL")
  /\ Service.detectObjects unit (fun _ => inl tt) JSON.parse "C:/photos/cat.png"
     = Raise (FileError "Invalid data URL").
Proof.
  pose proof (invalid_file_fails_first unit nat (fun _ => "0") (fun _ => inl tt)
                JSON.parse "C:/photos/cat.png" "Invalid data URL" eq_refl) as H.
  split; [reflexivity|]. split.
  - apply (proj1 (proj2 H)).
  - apply (proj1 (proj2 (proj2 (proj2 (proj2 (proj2 H)))))).
Defined.

Lemma blocked_fails_every_operation_witness :
  blockReason_of blocked_with_image = Some "SAFETY"
  /\ fileToPart "data:image/png;base64,iVBORw0KGgo=" = Ok (mkPart (Some png) None)
  /\ Service.detectObjects unit (fun _ => inr blocked_with_image) JSON.parse
       "data:image/png;base64,iVBORw0KGgo="
     = Raise (ResponseError (Failure RequestBlocked
                "Request was blocked. Reason: SAFETY. Unsafe prompt."))
  /\ Service.upscaleImage unit (fun _ => inr blocked_with_image)
       "data:image/png;base64,iVBORw0KGgo=" UHD_4K
     = Raise (ResponseError (Failure RequestBlocked
                "Request was blocked. Reason: SAFETY. Unsafe prompt.")).
Proof.
  assert (H := blocked_fails_every_operation unit nat (fun _ => "0")
                 (fun _ => inr blocked_with_image) JSON.parse
                 blocked_with_image "SAFETY"
                 "data:image/png;base64,iVBORw0KGgo=" "data:image/jpeg;base64,/9j/4AAQ"
                 (fun _ => eq_refl) eq_refl).
  split; [reflexivity|]. split; [reflexivity|].
  destruct H as (_ & _ & _ & _ & Hd & Hu).
  - discriminate.
  - eexists; reflexivity.
  - eexists; reflexivity.
  - split; [exact Hd | exact (Hu UHD_4K)].
Defined.

Lemma rejection_passes_through_witness :
  Service.detectObjects string (fun _ => inl "503 Service Unavailable") JSON.parse
    "data:image/png;base64,iVBORw0KGgo="
  = Raise (Rejected "503 Service Unavailable")
  /\ Service.compositeWithBackground string (fun _ => inl "503 Service Unavailable")
       "data:image/png;base64,iVBORw0KGgo=" "data:image/jpeg;base64,/9j/4AAQ"
     = Raise (Rejected "503 Service Unavailable").
Proof.
  assert (H := rejection_passes_through string nat (fun _ => "0")
                 (fun _ => inl "503 Service Unavailable") JSON.parse
                 "503 Service Unavailable"
                 "data:image/png;base64,iVBORw0KGgo=" "data:image/jpeg;base64,/9j/4AAQ"
                 (fun _ => eq_refl)).
  destruct H as (_ & _ & _ & Hc & Hd & _).
  - eexists; reflexivity.
  - eexists; reflexivity.
  - split; [exact Hd | exact Hc].
Defined.

Lemma echoed_upload_comes_back_witness :
  plain_mime "image/png"
  /\ Service.generateFilteredImage unit
       (fun request =>
          inr (mkResponse None
                 (Some [mkCandidate (Some (mkContent (Some (contents request))))
                                    (Some "STOP")])
                 None))
       ("data:" ++ "image/png" ++ ";base64," ++ "iVBORw0KGgo=") "sepia"
     = Resolved ("data:" ++ "image/png" ++ ";base64," ++ "iVBORw0KGgo=").
Proof.
  assert (P : plain_mime "image/png").
  { repeat split. discriminate. }
  split; [exact P|].
  assert (H := echoed_upload_comes_back unit nat (fun _ => "0")
                 (fun request =>
                    inr (mkResponse None
                           (Some [mkCandidate (Some (mkContent (Some (contents request))))
                                              (Some "STOP")])
                           None))
                 "image/png" "iVBORw0KGgo=" "data:image/jpeg;base64,/9j/4AAQ").
  destruct H as (_ & Hf & _).
  - intros request p others Hc. eexists _, others.
    split; [reflexivity|]. split; [reflexivity|].
    unfold first_parts, first_candidate; simpl. now rewrite Hc.
  - exact P.
  - reflexivity.
  - eexists; reflexivity.
  - exact (Hf "sepia").
Defined.

(** ** The background panel *)

Module BackgroundPanelFacts.

Import BackgroundPanel.

Lemma dispatch_activePrompt (isLoading : bool) (ev : Event) (st : State) :
  activePrompt (fst (dispatch isLoading ev st)) = accept (activePrompt st) (isLoading, ev).
Proof.
  unfold dispatch, accept, payload.
  destruct ev as [prompt | value |], isLoading; try reflexivity.
  - unfold activePrompt at 1; simpl. now destruct prompt.
  - now destruct (applyRendered st && negb (applyDisabled true st)).
  - now destruct (applyRendered st && negb (applyDisabled false st)).
Qed.

Lemma dispatch_exclusive (isLoading : bool) (ev : Event) (st : State) :
  selectedPresetPrompt st = None \/ customPrompt st = "" ->
  selectedPresetPrompt (fst (dispatch isLoading ev st)) = None
  \/ customPrompt (fst (dispatch isLoading ev st)) = "".
Proof.
  intros H. unfold dispatch.
  destruct ev as [prompt | value |], isLoading;
    try assumption; try (now right); try (now left).
  - now destruct (applyRendered st && negb (applyDisabled true st)).
  - now destruct (applyRendered st && negb (applyDisabled false st)).
Qed.

Lemma background_run_cons (isLoading : bool) (ev : Event) (rest : list (bool * Event)) (st : State) :
  run ((isLoading, ev) :: rest) st =
  (fst (run rest (fst (dispatch isLoading ev st))),
   match snd (dispatch isLoading ev st) with
   | Some p => p :: snd (run rest (fst (dispatch isLoading ev st)))
   | None => snd (run rest (fst (dispatch isLoading ev st)))
   end).
Proof.
  simpl. destruct (dispatch isLoading ev st) as [st' sent]. simpl.
  destruct (run rest st') as [final more]. reflexivity.
Qed.

Lemma run_exclusive (events : list (bool * Event)) (st : State) :
  selectedPresetPrompt st = None \/ customPrompt st = "" ->
  selectedPresetPrompt (fst (run events st)) = None
  \/ customPrompt (fst (run events st)) = "".
Proof.
  revert st; induction events as [|[isLoading ev] rest IH]; intros st H.
  - exact H.
  - rewrite background_run_cons. simpl. apply IH. now apply dispatch_exclusive.
Qed.

Lemma run_activePrompt (events : list (bool * Event)) (st : State) :
  activePrompt (fst (run events st)) = latest events (activePrompt st).
Proof.
  revert st; induction events as [|[isLoading ev] rest IH]; intros st.
  - reflexivity.
  - rewrite background_run_cons. simpl fst. rewrite IH, dispatch_activePrompt. reflexivity.
Qed.

(** What a click on the apply button hands to the parent. *)
Lemma dispatch_sent (isLoading : bool) (ev : Event) (st : State) (p : string) :
  snd (dispatch isLoading ev st) = Some p ->
  ev = ApplyClick /\ isLoading = false /\ p = activePrompt st /\ JS.trim p <> "".
Proof.
  destruct ev as [prompt | value |]; simpl.
  - destruct isLoading; discriminate.
  - destruct isLoading; discriminate.
  - unfold applyRendered, applyDisabled, handleApply.
    destruct (JS.truthy_string (activePrompt st)); simpl; [|discriminate].
    destruct isLoading; simpl; [discriminate|].
    destruct (JS.truthy_string (JS.trim (activePrompt st))) eqn:Ht; simpl; [|discriminate].
    intros H. injection H as <-. repeat split.
    intros E. rewrite E in Ht. discriminate.
Qed.

Lemma run_sent (events : list (bool * Event)) (st : State) (p : string) :
  In p (snd (run events st)) ->
  JS.trim p <> ""
  /\ exists before after,
       events = (before ++ (false, ApplyClick) :: after)%list
       /\ p = latest before (activePrompt st).
Proof.
  revert st; induction events as [|[isLoading ev] rest IH]; intros st H.
  - destruct H.
  - rewrite background_run_cons in H. simpl snd in H.
    assert (Hlater : In p (snd (run rest (fst (dispatch isLoading ev st)))) ->
                     JS.trim p <> ""
                     /\ exists before after,
                          ((isLoading, ev) :: rest
                           = before ++ (false, ApplyClick) :: after)%list
                          /\ p = latest before (activePrompt st)).
    { intros Hin. destruct (IH _ Hin) as (Hne & before & after & -> & ->).
      split; [exact Hne|].
      exists ((isLoading, ev) :: before), after. split; [reflexivity|].
      rewrite dispatch_activePrompt. reflexivity. }
    destruct (snd (dispatch isLoading ev st)) as [q|] eqn:Hq; [|now apply Hlater].
    destruct H as [<- | Hin]; [|now apply Hlater].
    destruct (dispatch_sent _ _ _ _ Hq) as (-> & -> & -> & Hne).
    split; [exact Hne|]. now exists [], rest.
Qed.

End BackgroundPanelFacts.

(** X17: in the background panel a selected preset and a typed prompt never
    coexist: after any session, either no preset is selected or the custom
    prompt is empty. *)
Theorem preset_and_custom_exclusive (events : list (bool * BackgroundPanel.Event)) :
  BackgroundPanel.selectedPresetPrompt
    (fst (BackgroundPanel.run events BackgroundPanel.initial)) = None
  \/ BackgroundPanel.customPrompt
       (fst (BackgroundPanel.run events BackgroundPanel.initial)) = "".
Proof.
  apply BackgroundPanelFacts.run_exclusive. now left.
Qed.

(** X18: the active prompt of the background panel is always the text of the
    latest preset click or input change that happened while the panel was
    not loading, and empty before the first. *)
Theorem activePrompt_is_latest_input (events : list (bool * BackgroundPanel.Event)) :
  BackgroundPanel.activePrompt (fst (BackgroundPanel.run events BackgroundPanel.initial))
  = BackgroundPanel.latest events "".
Proof.
  apply BackgroundPanelFacts.run_activePrompt.
Qed.

(** X19: every prompt that the background panel hands to its parent comes
    from a click on the apply button while the panel was not loading, is the
    latest input at that moment, passed on untrimmed, and does not trim to
    the empty string. *)
Theorem applied_prompt_is_latest_and_not_blank
    (events : list (bool * BackgroundPanel.Event)) (p : string) :
  In p (snd (BackgroundPanel.run events BackgroundPanel.initial)) ->
  JS.trim p <> ""
  /\ exists before after,
       events = (before ++ (false, BackgroundPanel.ApplyClick) :: after)%list
       /\ p = BackgroundPanel.latest before "".
Proof.
  apply BackgroundPanelFacts.run_sent.
Qed.

Lemma applied_prompt_is_latest_and_not_blank_witness :
  snd (BackgroundPanel.run BackgroundPanel.session BackgroundPanel.initial)
    = [" teal to navy "]
  /\ JS.trim " teal to navy " <> ""
  /\ exists before after,
       BackgroundPanel.session
       = (before ++ (false, BackgroundPanel.ApplyClick) :: after)%list
       /\ " teal to navy " = BackgroundPanel.latest before "".
Proof.
  split; [reflexivity|].
  apply (applied_prompt_is_latest_and_not_blank BackgroundPanel.session " teal to navy ").
  left. reflexivity.
Defined.

(** ** The object panel *)

Module ObjectPanelFacts.

Import ObjectPanel.

Section Facts.

Variable Number : Type.

#[warning="-notation-for-abbreviation"] Local Notation State := (State Number).
#[warning="-notation-for-abbreviation"] Local Notation Event := (Event Number).

Lemma same_selection_true (a b : option string) :
  same_selection a b = true -> a = b.
Proof.
  destruct a as [s|], b as [t|]; simpl; try discriminate; try reflexivity.
  intros H. apply String.eqb_eq in H. now subst.
Qed.

Lemma object_run_cons (ev : Event) (rest : list Event) (st : State) :
  run Number (ev :: rest) st =
  (fst (run Number rest (fst (dispatch Number ev st))),
   match snd (dispatch Number ev st) with
   | Some c => c :: snd (run Number rest (fst (dispatch Number ev st)))
   | None => snd (run Number rest (fst (dispatch Number ev st)))
   end).
Proof.
  simpl. destruct (dispatch Number ev st) as [st' call]. simpl.
  destruct (run Number rest st') as [final more]. reflexivity.
Qed.

Lemma run_app_state (a b : list Event) (st : State) :
  fst (run Number (a ++ b)%list st) = fst (run Number b (fst (run Number a st))).
Proof.
  revert st; induction a as [|ev a IH]; intros st; [reflexivity|].
  change ((ev :: a) ++ b)%list with (ev :: (a ++ b))%list.
  rewrite !object_run_cons. simpl fst. apply IH.
Qed.

(** The one event that calls [onGenerateEdit], and with what. *)
Lemma dispatch_call (ev : Event) (st : State) (p objectId : string) :
  snd (dispatch Number ev st) = Some (p, objectId) ->
  ev = Submit
  /\ p = prompt Number st
  /\ selectedObjectId Number (props Number st) = Some objectId
  /\ isLoading Number (props Number st) = false
  /\ isEditing Number (props Number st) = false
  /\ JS.trim p <> ""
  /\ exists o, In o (objects Number (props Number st)) /\ id Number o = objectId.
Proof.
  destruct ev as [q | value |]; simpl.
  - discriminate.
  - destruct (render Number st) as [| |? [[[? []] ?]|]]; discriminate.
  - unfold render.
    destruct (isLoading Number (props Number st)); [discriminate|].
    destruct (List.length (objects Number (props Number st)) =? 0)%nat; [discriminate|].
    destruct (selectedObject Number (props Number st)) as [o|] eqn:Ho; [|discriminate].
    destruct (isEditing Number (props Number st)); simpl; [discriminate|].
    destruct (JS.truthy_string (JS.trim (prompt Number st))) eqn:Ht; simpl; [|discriminate].
    destruct (selectedObjectId Number (props Number st)) as [sel|] eqn:Hsel; [|discriminate].
    intros H. injection H as <- <-.
    repeat split.
    + intros E. rewrite E in Ht. discriminate.
    + unfold selectedObject in Ho. apply find_some in Ho as [Hin Hid].
      exists o. split; [exact Hin|].
      rewrite Hsel in Hid. simpl in Hid. now apply String.eqb_eq in Hid.
Qed.

(** Every call comes from a [Submit] somewhere in the session. *)
Lemma call_point (events : list Event) (st : State) (c : string * string) :
  In c (snd (run Number events st)) ->
  exists past after,
    events = (past ++ Submit :: after)%list
    /\ snd (dispatch Number Submit (fst (run Number past st))) = Some c.
Proof.
  revert st; induction events as [|ev rest IH]; intros st H; [destruct H|].
  rewrite object_run_cons in H. simpl snd in H.
  assert (Hlater : In c (snd (run Number rest (fst (dispatch Number ev st)))) ->
                   exists past after,
                     (ev :: rest = past ++ Submit :: after)%list
                     /\ snd (dispatch Number Submit (fst (run Number past st))) = Some c).
  { intros Hin. destruct (IH _ Hin) as (past & after & -> & Hc).
    exists (ev :: past), after. split; [reflexivity|].
    rewrite object_run_cons. exact Hc. }
  destruct (snd (dispatch Number ev st)) as [c'|] eqn:Hc; [|now apply Hlater].
  destruct H as [<- | Hin]; [|now apply Hlater].
  destruct c' as [p objectId].
  destruct (dispatch_call _ _ _ _ Hc) as (-> & _).
  now exists [], rest.
Qed.

Lemma typed_under_selection_step
    (st0 : State) (past : list Event) (ev : Event) :
  typed_under_selection Number st0 past (fst (run Number past st0)) ->
  typed_under_selection Number st0 (past ++ [ev])%list
    (fst (dispatch Number ev (fst (run Number past st0)))).
Proof.
  set (st := fst (run Number past st0)). intros H.
  assert (Hkeep : forall st',
             prompt Number st' = prompt Number st ->
             selectedObjectId Number (props Number st')
             = selectedObjectId Number (props Number st) ->
             keeps_selection Number (selectedObjectId Number (props Number st)) ev ->
             typed_under_selection Number st0 (past ++ [ev])%list st').
  { intros st' Hp Hs Hev. destruct H as [H | (before & since & E & Hsel & Hall)].
    - left. congruence.
    - right. exists before, (since ++ [ev])%list. rewrite Hp, Hs. repeat split.
      + rewrite E. now rewrite <- app_assoc.
      + exact Hsel.
      + apply Forall_app. split; [exact Hall | now constructor]. }
  destruct ev as [q | value |].
  - simpl.
    destruct (same_selection (selectedObjectId Number (props Number st))
                             (selectedObjectId Number q)) eqn:Hs.
    + apply same_selection_true in Hs. apply Hkeep; simpl; congruence.
    + now left.
  - assert (Htyped : typed_under_selection Number st0 (past ++ [Change value])%list
                       (mkState Number (props Number st) value)).
    { right. exists past, []. repeat split. constructor. }
    simpl.
    destruct (render Number st) as [| |? [[[? []] ?]|]];
      first [exact Htyped | now apply Hkeep].
  - assert (Hsame : fst (dispatch Number Submit st) = st).
    { simpl.
      destruct (render Number st) as [| |? [[[? ?] []]|]]; try reflexivity;
        now destruct (selectedObjectId Number (props Number st)). }
    rewrite Hsame. now apply Hkeep.
Qed.

Lemma typed_under_selection_run (p0 : Props Number) (past : list Event) :
  typed_under_selection Number (mount Number p0) past (fst (run Number past (mount Number p0))).
Proof.
  induction past as [|ev past IH] using rev_ind.
  - now left.
  - rewrite run_app_state.
    change (fst (run Number [ev] (fst (run Number past (mount Number p0)))))
      with (fst (let (st', call) := dispatch Number ev (fst (run Number past (mount Number p0)))
                 in (st', match call with Some c => [c] | None => [] end))).
    destruct (dispatch Number ev (fst (run Number past (mount Number p0)))) as [st' call] eqn:E.
    replace st' with (fst (dispatch Number ev (fst (run Number past (mount Number p0)))))
      by now rewrite E.
    now apply typed_under_selection_step.
Qed.

End Facts.

End ObjectPanelFacts.

(** X20: every edit request that the object panel sends comes from a submit
    made while the panel was neither loading nor editing, carries the prompt
    of that moment, which does not trim to the empty string, and names an
    object that was in the list at that moment. *)
Theorem edit_request_targets_listed_object
    (Number : Type) (p0 : ObjectPanel.Props Number)
    (events : list (ObjectPanel.Event Number)) (p objectId : string) :
  In (p, objectId) (snd (ObjectPanel.run Number events (ObjectPanel.mount Number p0))) ->
  exists past after st,
    events = (past ++ ObjectPanel.Submit :: after)%list
    /\ st = fst (ObjectPanel.run Number past (ObjectPanel.mount Number p0))
    /\ p = ObjectPanel.prompt Number st
    /\ JS.trim p <> ""
    /\ ObjectPanel.isLoading Number (ObjectPanel.props Number st) = false
    /\ ObjectPanel.isEditing Number (ObjectPanel.props Number st) = false
    /\ exists o,
         In o (ObjectPanel.objects Number (ObjectPanel.props Number st))
         /\ ObjectPanel.id Number o = objectId.
Proof.
  intros H.
  destruct (ObjectPanelFacts.call_point Number _ _ _ H) as (past & after & -> & Hc).
  destruct (ObjectPanelFacts.dispatch_call Number _ _ _ _ Hc)
    as (_ & Hp & _ & Hl & He & Hne & Ho).
  exists past, after, (fst (ObjectPanel.run Number past (ObjectPanel.mount Number p0))).
  repeat split; assumption.
Qed.

Lemma edit_request_targets_listed_object_witness :
  snd (ObjectPanel.run nat ObjectPanel.session
         (ObjectPanel.mount nat (ObjectPanel.listed None)))
    = [("make it blue", "obj-2")]
  /\ exists past after st,
       ObjectPanel.session = (past ++ ObjectPanel.Submit :: after)%list
       /\ st = fst (ObjectPanel.run nat past (ObjectPanel.mount nat (ObjectPanel.listed None)))
       /\ "make it blue" = ObjectPanel.prompt nat st
       /\ JS.trim "make it blue" <> ""
       /\ ObjectPanel.isLoading nat (ObjectPanel.props nat st) = false
       /\ ObjectPanel.isEditing nat (ObjectPanel.props nat st) = false
       /\ exists o,
            In o (ObjectPanel.objects nat (ObjectPanel.props nat st))
            /\ ObjectPanel.id nat o = "obj-2".
Proof.
  split; [reflexivity|].
  apply (edit_request_targets_listed_object nat (ObjectPanel.listed None)
           ObjectPanel.session "make it blue" "obj-2").
  left. reflexivity.
Defined.

(** X21: text typed under one selected id is never sent under another: the
    prompt of every edit request was typed while [selectedObjectId] had the
    value that the request names, and every render up to the submit kept
    [selectedObjectId] at that value.  Only the id is concerned: the effect
    depends on [selectedObjectId] alone, and a render that replaces the list
    under the same id keeps the prompt ([rescan_keeps_prompt]). *)
Theorem edit_prompt_typed_under_selected_id
    (Number : Type) (p0 : ObjectPanel.Props Number)
    (events : list (ObjectPanel.Event Number)) (p objectId : string) :
  In (p, objectId) (snd (ObjectPanel.run Number events (ObjectPanel.mount Number p0))) ->
  exists before since after,
    events = (before ++ ObjectPanel.Change p :: since ++ ObjectPanel.Submit :: after)%list
    /\ ObjectPanel.selectedObjectId Number
         (ObjectPanel.props Number
            (fst (ObjectPanel.run Number before (ObjectPanel.mount Number p0))))
       = Some objectId
    /\ Forall (ObjectPanel.keeps_selection Number (Some objectId)) since.
Proof.
  intros H.
  destruct (ObjectPanelFacts.call_point Number _ _ _ H) as (past & after & -> & Hc).
  destruct (ObjectPanelFacts.dispatch_call Number _ _ _ _ Hc)
    as (_ & Hp & Hsel & _ & _ & Hne & _).
  destruct (ObjectPanelFacts.typed_under_selection_run Number p0 past)
    as [Hempty | (before & since & E & Hb & Hall)].
  - exfalso. apply Hne. rewrite Hp, Hempty. reflexivity.
  - exists before, since, after. rewrite <- Hp in E. rewrite Hsel in Hb, Hall.
    repeat split; [|exact Hb | exact Hall].
    rewrite E. rewrite <- app_assoc. reflexivity.
Qed.

Lemma edit_prompt_typed_under_selected_id_witness :
  exists before since after,
    ObjectPanel.session
    = (before ++ ObjectPanel.Change "make it blue"
              :: since ++ ObjectPanel.Submit :: after)%list
    /\ ObjectPanel.selectedObjectId nat
         (ObjectPanel.props nat
            (fst (ObjectPanel.run nat before (ObjectPanel.mount nat (ObjectPanel.listed None)))))
       = Some "obj-2"
    /\ Forall (ObjectPanel.keeps_selection nat (Some "obj-2")) since.
Proof.
  apply (edit_prompt_typed_under_selected_id nat (ObjectPanel.listed None)
           ObjectPanel.session "make it blue" "obj-2").
  left. reflexivity.
Defined.

(** The prompt outlives a change of the list under the selected id: what was
    typed while [obj-1] was the cat is sent when [obj-1] is the dog. *)
Example rescan_keeps_prompt :
  snd (ObjectPanel.run nat ObjectPanel.rescan_session
         (ObjectPanel.mount nat (ObjectPanel.listed None)))
    = [("paint it red", "obj-1")]
  /\ ObjectPanel.selectedObject nat (ObjectPanel.relisted (Some "obj-1"))
     = Some (ObjectPanel.mkDetectedObject nat "dog"
               (ObjectPanel.mkBoundingBox nat 20 5 60 40) "obj-1").
Proof. split; reflexivity. Qed.
